(** * Percify Avatar Co-Pilot: profile/memory store and context assembler

    A shallow embedding of [src/server.ts] (class [PercifyAvatarAgent]) and of
    the [saveMemory] tool of [src/tools.ts], with the properties stated by the
    repository's specification.

    Conventions of the embedding:
    - a JavaScript string is a [string], the bytes of its UTF-8 encoding;
      concatenation and comparison with a literal are then those of
      [string], while what counts UTF-16 code units ([substring]) or knows
      Unicode classes ([trim], regular expressions) is left to the host;
    - [undefined] in an optional position is [None];
    - the agent's mutable fields are threaded through a small state monad
      over [World];
    - what the host runtime supplies (identifier generator, date formatting,
      schedule prompt, the regular-expression engine and the string
      primitives named above) is the interface [Host]. *)

From Stdlib Require Import ZArith String Ascii List Lia.
From stdpp Require Import base option list strings gmap pretty.

Set Warnings "-register-all".
Local Open Scope Z_scope.

(** ** JavaScript values and operators used by the sources *)

Module JS.

(** JSON-like run-time values: what persisted agent state and tool
    arguments can be before any TypeScript type is trusted. *)
Inductive jsval :=
  | JUndefined
  | JNull
  | JBool (b : bool)
  | JNum (z : Z)
  | JStr (s : string)
  | JArr (l : list jsval)
  | JObj (m : gmap string jsval).

(** The line feed of a template literal. *)
Definition nl : string := String (ascii_of_nat 10) EmptyString.

(** Truthiness of a value of a statically known type. *)
Class Truthy (A : Type) := truthy : A -> bool.

(** The empty string is the only falsy string. *)
#[global] Instance truthy_string : Truthy string :=
  fun s => match s with EmptyString => false | String _ _ => true end.

(** Every array is an object, hence truthy, the empty one included. *)
#[global] Instance truthy_array {A : Type} : Truthy (list A) := fun _ => true.

(** [a || b] where both sides may be [undefined]. *)
Definition or_undef {A : Type} `{Truthy A} (a b : option A) : option A :=
  match a with
  | Some v => if truthy v then Some v else b
  | None => b
  end.

(** [a || d] where [d] is a defined value. *)
Definition or_else {A : Type} `{Truthy A} (a : option A) (d : A) : A :=
  match a with
  | Some v => if truthy v then v else d
  | None => d
  end.

(** [arr.slice(start)]: a negative [start] counts from the end. *)
Definition slice {A : Type} (start : Z) (arr : list A) : list A :=
  let len := Z.of_nat (length arr) in
  let k := if start <? 0 then Z.max (len + start) 0 else Z.min start len in
  drop (Z.to_nat k) arr.

(** [arr.join(sep)] on an array of strings. *)
Fixpoint join (sep : string) (arr : list string) : string :=
  match arr with
  | [] => EmptyString
  | [x] => x
  | x :: rest => x +:+ sep +:+ join sep rest
  end.

(** Truthiness of a run-time value ([!v] is its negation). *)
Definition truthy_val (v : jsval) : bool :=
  match v with
  | JUndefined | JNull => false
  | JBool b => b
  | JNum z => negb (z =? 0)
  | JStr s => truthy s
  | JArr _ | JObj _ => true
  end.

(** [typeof v]. *)
Definition typeof (v : jsval) : string :=
  match v with
  | JUndefined => "undefined"
  | JNull | JArr _ | JObj _ => "object"
  | JBool _ => "boolean"
  | JNum _ => "number"
  | JStr _ => "string"
  end.

(** [Array.isArray(v)]. *)
Definition isArray (v : jsval) : bool :=
  match v with JArr _ => true | _ => false end.

(** The own enumerable properties copied by an object spread [{...v}]:
    those of an object, the indices of an array or of a string, nothing
    for the other primitives. *)
Definition indexed {A : Type} (f : A -> jsval) (l : list A) : gmap string jsval :=
  list_to_map (imap (fun i x => (pretty i, f x)) l).

Definition spread (v : jsval) : gmap string jsval :=
  match v with
  | JObj m => m
  | JArr l => indexed (fun x => x) l
  | JStr s => indexed (fun c => JStr (String c EmptyString)) (list_ascii_of_string s)
  | _ => ∅
  end.

(** The result of an evaluation that may throw. *)
Inductive Outcome (A : Type) :=
  | Fulfilled (a : A)
  | Rejected (err : string).
Arguments Fulfilled {A} a.
Arguments Rejected {A} err.

Definition obind {A B : Type} (m : Outcome A) (k : A -> Outcome B) : Outcome B :=
  match m with
  | Fulfilled a => k a
  | Rejected e => Rejected e
  end.

(** [try { body } catch (error) { handler }]. *)
Definition try_catch {A : Type} (body : Outcome A) (handler : string -> Outcome A)
  : Outcome A :=
  match body with
  | Fulfilled a => Fulfilled a
  | Rejected e => handler e
  end.

(** [v.k]: a [TypeError] on [undefined] and [null]; [undefined] for a
    property that is not there. Only named (non-index) keys are read by
    the sources, so an array or a primitive has none of them. *)
Definition getProp (v : jsval) (k : string) : Outcome jsval :=
  match v with
  | JUndefined | JNull => Rejected "TypeError: Cannot read properties"
  | JObj m => Fulfilled (default JUndefined (m !! k))
  | _ => Fulfilled JUndefined
  end.

End JS.

Import JS.

(** ** What the runtime supplies *)

(** A regular-expression literal: its source and its flags. *)
Record RegExp := { source : string; flags : string }.

Class Host := {
  (** the [n]-th identifier handed out by [generateId()] *)
  generateId : nat -> string;
  (** [new Date(ms).toISOString()] *)
  toISOString : Z -> string;
  (** [new Date(iso).toLocaleDateString()] *)
  toLocaleDateString : string -> string;
  (** [getSchedulePrompt({ date })] *)
  getSchedulePrompt : Z -> string;
  (** [s.replace(re, by)] *)
  replace : RegExp -> string -> string -> string;
  (** [s.trim()] *)
  trim : string -> string;
  (** [s.substring(start, end)], counted in UTF-16 code units *)
  substring : nat -> nat -> string -> string
}.

(** ** Type definitions (server.ts, lines 25-49) *)

Inductive Tone := casual | professional | playful | technical.

Definition tone_str (t : Tone) : string :=
  match t with
  | casual => "casual"
  | professional => "professional"
  | playful => "playful"
  | technical => "technical"
  end.

(** A tone is one of four non-empty string literals. *)
#[global] Instance truthy_tone : Truthy Tone := fun t => truthy (tone_str t).

Inductive MemoryType := task | preference | note.

Definition type_str (t : MemoryType) : string :=
  match t with
  | task => "task"
  | preference => "preference"
  | note => "note"
  end.

Module AvatarProfile.
Record t := mk {
  id : string;
  displayName : string;
  bio : string;
  tone : Tone;
  expertiseTags : list string
}.
End AvatarProfile.

(** [Partial<AvatarProfile>]: every field may be missing. *)
Module PartialProfile.
Record t := mk {
  id : option string;
  displayName : option string;
  bio : option string;
  tone : option Tone;
  expertiseTags : option (list string)
}.
Definition empty : t := mk None None None None None.
End PartialProfile.

Module MemoryItem.
Record t := mk {
  id : string;
  createdAt : string;
  type : MemoryType;
  content : string
}.
End MemoryItem.

Module AgentState.
Record t := mk {
  avatar : option AvatarProfile.t;
  memories : list MemoryItem.t
}.
End AgentState.

(** ** The agent as a state monad *)

(** What a method of the agent can read or change: [this.state], how many
    identifiers the generator has handed out, and the clock. *)
Record World := mkWorld {
  state : AgentState.t;
  idCount : nat;
  now : Z
}.

Definition M (A : Type) : Type := World -> A * World.

Definition ret {A : Type} (a : A) : M A := fun w => (a, w).

Definition bind {A B : Type} (m : M A) (k : A -> M B) : M B :=
  fun w => let (a, w') := m w in k a w'.

#[global] Instance agent_ret : MRet M := @ret.
#[global] Instance agent_bind : MBind M := fun A B k m => bind m k.

(** [this.state] *)
Definition getState : M AgentState.t := fun w => (state w, w).

(** [this.setState(s)] *)
Definition setState (s : AgentState.t) : M unit :=
  fun w => (tt, mkWorld s (idCount w) (now w)).

(** [new Date()], in milliseconds *)
Definition newDate : M Z := fun w => (now w, w).

(** The value and the final world of a run. *)
Definition eval {A : Type} (m : M A) (w : World) : A := fst (m w).
Definition exec {A : Type} (m : M A) (w : World) : World := snd (m w).

(** [initialState] (lines 82-85) *)
Definition initialState : AgentState.t := AgentState.mk None [].

Section Agent.
Context `{Host}.

(** [generateId()] *)
Definition callGenerateId : M string :=
  fun w => (generateId (idCount w), mkWorld (state w) (S (idCount w)) (now w)).

(** [a || generateId()]: the generator runs only when [a] is falsy. *)
Definition or_generateId (a : option string) : M string :=
  match a with
  | Some v => if truthy v then ret v else callGenerateId
  | None => callGenerateId
  end.

(** [getAvatarState] (lines 115-120) *)
Definition getAvatarState : M AgentState.t :=
  st ← getState;
  ret (AgentState.mk (AgentState.avatar st) (slice (-5) (AgentState.memories st))).

(** [saveAvatarProfile] (lines 125-144) *)
Definition saveAvatarProfile (profileInput : PartialProfile.t) : M AvatarProfile.t :=
  st ← getState;
  let currentAvatar := AgentState.avatar st in
  id ← or_generateId (AvatarProfile.id <$> currentAvatar);
  let updatedAvatar :=
    AvatarProfile.mk
      id
      (or_else (or_undef (PartialProfile.displayName profileInput)
                         (AvatarProfile.displayName <$> currentAvatar))
               "Unnamed Avatar")
      (or_else (or_undef (PartialProfile.bio profileInput)
                         (AvatarProfile.bio <$> currentAvatar))
               EmptyString)
      (or_else (or_undef (PartialProfile.tone profileInput)
                         (AvatarProfile.tone <$> currentAvatar))
               casual)
      (or_else (or_undef (PartialProfile.expertiseTags profileInput)
                         (AvatarProfile.expertiseTags <$> currentAvatar))
               []) in
  st' ← getState;
  setState (AgentState.mk (Some updatedAvatar) (AgentState.memories st'));;
  ret updatedAvatar.

(** The item built at the top of [saveMemory] (lines 152-157). *)
Definition newMemory (type : MemoryType) (content : string) : M MemoryItem.t :=
  id ← callGenerateId;
  date ← newDate;
  ret (MemoryItem.mk id (toISOString date) type content).

(** [saveMemory] (lines 149-174) *)
Definition saveMemory (type : MemoryType) (content : string) : M (list MemoryItem.t) :=
  item ← newMemory type content;
  st ← getState;
  let updatedMemories := AgentState.memories st ++ [item] in
  let updatedMemories :=
    if (50 <? length updatedMemories)%nat
    then slice (-50) updatedMemories
    else updatedMemories in
  st' ← getState;
  setState (AgentState.mk (AgentState.avatar st') updatedMemories);;
  ret (slice (-5) updatedMemories).

(** Rendering of [${v}] in a template literal when [v] may be [undefined]. *)
Definition interpolate (v : option string) : string := default "undefined" v.

(** [buildContextString] (lines 214-239). The [context += ...] statements
    are successive bindings of [context]; the [for ... of] loop is a left
    fold that carries [context]. *)
Definition buildContextString : M string :=
  st ← getState;
  let avatar := AgentState.avatar st in
  let recentMemories := slice (-3) (AgentState.memories st) in
  let context := "## Current Avatar State" +:+ nl in
  let context :=
    match avatar with
    | Some avatar =>
        let context := context +:+ "- Name: " +:+ AvatarProfile.displayName avatar +:+ nl in
        let context := context +:+ "- Bio: "
                         +:+ or_else (Some (AvatarProfile.bio avatar)) "Not set" +:+ nl in
        let context := context +:+ "- Tone: " +:+ tone_str (AvatarProfile.tone avatar) +:+ nl in
        context +:+ "- Expertise: "
          +:+ (if (0 <? length (AvatarProfile.expertiseTags avatar))%nat
               then join ", " (AvatarProfile.expertiseTags avatar)
               else "None specified") +:+ nl
    | None => context +:+ "- No avatar profile set yet. The user can create one." +:+ nl
    end in
  let context := context +:+ nl +:+ "## Recent Memories" +:+ nl in
  let context :=
    if (0 <? length recentMemories)%nat
    then fold_left
           (fun context mem =>
              context +:+ "- [" +:+ type_str (MemoryItem.type mem) +:+ "] "
                +:+ MemoryItem.content mem +:+ " ("
                +:+ toLocaleDateString (MemoryItem.createdAt mem) +:+ ")" +:+ nl)
           recentMemories context
    else context +:+ "- No memories stored yet." +:+ nl in
  ret context.

(** The object literal [toneInstructions] (lines 246-251), a
    [Record<string, string>] indexed by a string at run time. *)
Definition toneInstructions : gmap string string :=
  list_to_map
    [ ("casual", "Be friendly, relaxed, and approachable. Use conversational language.");
      ("professional", "Be formal, precise, and business-like. Maintain a professional demeanor.");
      ("playful", "Be fun, energetic, and use humor when appropriate. Keep things light.");
      ("technical", "Be detailed, accurate, and use technical terminology. Focus on precision.") ].

(** The fixed text of the system prompt around its interpolations
    (lines 253-275). *)
Definition promptIntro : string :=
  "You are Percify Avatar Co-Pilot, an AI assistant that maintains a persistent avatar persona for each user."
  +:+ nl +:+ nl
  +:+ "## Your Behavior" +:+ nl
  +:+ "1. ALWAYS think in steps: understand user request → inspect avatar + memories → decide actions → respond" +:+ nl
  +:+ "2. Maintain the avatar's tone (".

Definition promptRules : string :=
  nl
  +:+ "3. Store memories for recurring preferences and important tasks" +:+ nl
  +:+ "4. When the user wants to set or change their avatar, use the saveAvatarProfile tool" +:+ nl
  +:+ "5. When the user shares preferences or asks you to remember something, use the saveMemory tool" +:+ nl
  +:+ "6. When the user asks for research or information lookup, use the researchWeb tool" +:+ nl
  +:+ nl
  +:+ "## Available Actions" +:+ nl
  +:+ "- update_avatar: Update the user's avatar profile (name, bio, tone, expertise)" +:+ nl
  +:+ "- store_memory: Save important information, preferences, or task notes" +:+ nl
  +:+ "- research: Look up information from web sources" +:+ nl
  +:+ "- chat: Just respond to the user without taking action" +:+ nl
  +:+ "- combo: Perform multiple actions in sequence" +:+ nl
  +:+ nl
  +:+ "## Response Format" +:+ nl
  +:+ "When you need to take actions, use the available tools. Always explain what you did after taking actions."
  +:+ nl +:+ nl.

(** [getSystemPrompt] (lines 244-276) *)
Definition getSystemPrompt : M string :=
  st ← getState;
  let tone := or_else (tone_str <$> (AvatarProfile.tone <$> AgentState.avatar st)) "casual" in
  date ← newDate;
  context ← buildContextString;
  ret (promptIntro +:+ tone +:+ ") in ALL responses: "
         +:+ interpolate (toneInstructions !! tone)
         +:+ promptRules
         +:+ getSchedulePrompt date +:+ nl +:+ nl
         +:+ context).

(** *** Web research (lines 179-209) *)

(** What [fetch] resolves to: a status and a body whose reading may fail. *)
Record Response := { status : Z; text : Outcome string }.

Record ResearchResult := {
  query : string;
  snippet : string;
  sourceUrl : string
}.

(** The double quote of the fallback text. *)
Definition dq : string := String (ascii_of_nat 34) EmptyString.

Definition researchSource : string := "https://developers.cloudflare.com/agents/".

Definition fallbackSnippet (query : string) : string :=
  "Research on " +:+ dq +:+ query +:+ dq
  +:+ " completed. Cloudflare Agents SDK enables building AI-powered applications with persistent state, real-time communication, and tool integration capabilities.".

Definition reScript : RegExp := {| source := "<script[^>]*>[\s\S]*?<\/script>"; flags := "gi" |}.
Definition reStyle : RegExp := {| source := "<style[^>]*>[\s\S]*?<\/style>"; flags := "gi" |}.
Definition reTag : RegExp := {| source := "<[^>]+>"; flags := "g" |}.
Definition reSpaces : RegExp := {| source := "\s+"; flags := "g" |}.

(** [researchWeb]; [fetch] is the outcome of the request for each URL. *)
Definition researchWeb (fetch : string -> Outcome Response) (query : string)
  : Outcome ResearchResult :=
  let sourceUrl := researchSource in
  try_catch
    (obind (fetch sourceUrl) (fun response =>
     obind (text response) (fun html =>
       let textContent :=
         trim (replace reSpaces " "
                 (replace reTag " "
                    (replace reStyle EmptyString
                       (replace reScript EmptyString html)))) in
       let snippet := substring 0 500 textContent +:+ "..." in
       Fulfilled {| query := query; snippet := snippet; sourceUrl := sourceUrl |})))
    (fun error =>
       Fulfilled {| query := query; snippet := fallbackSnippet query; sourceUrl := sourceUrl |}).

(** *** A run of [saveMemory] calls *)

(** One call: the clock reading at which it happens and its arguments. *)
Record Call := { at_ms : Z; call_type : MemoryType; call_content : string }.

(** The host moves the clock between calls. *)
Definition setClock (ms : Z) : M unit :=
  fun w => (tt, mkWorld (state w) (idCount w) ms).

Definition doCall (c : Call) : M (list MemoryItem.t) :=
  setClock (at_ms c);;
  saveMemory (call_type c) (call_content c).

(** All calls in order; the value is what the last call returned. *)
Fixpoint runCalls (calls : list Call) (last : list MemoryItem.t) : M (list MemoryItem.t) :=
  match calls with
  | [] => ret last
  | c :: rest => r ← doCall c; runCalls rest r
  end.

(** The items that the calls build, in the order of the calls. *)
Fixpoint appended (calls : list Call) (w : World) : list MemoryItem.t :=
  match calls with
  | [] => []
  | c :: rest =>
      eval (setClock (at_ms c);; newMemory (call_type c) (call_content c)) w
        :: appended rest (exec (doCall c) w)
  end.

End Agent.

(** ** The [saveMemory] tool (tools.ts, lines 70-102) *)

Module Tools.

(** [z.string()] *)
Definition z_string (v : jsval) : option string :=
  match v with JStr s => Some s | _ => None end.

(** [z.enum(["task", "preference", "note"])] *)
Definition z_enum_type (v : jsval) : option MemoryType :=
  match v with
  | JStr s =>
      if String.eqb s "task" then Some task
      else if String.eqb s "preference" then Some preference
      else if String.eqb s "note" then Some note
      else None
  | _ => None
  end.

(** [inputSchema]: an object whose [type] and [content] pass their schemas;
    a missing key is read as [undefined]. *)
Definition inputSchema (input : jsval) : option (MemoryType * string) :=
  match input with
  | JObj m =>
      type ← z_enum_type (default JUndefined (m !! "type"));
      content ← z_string (default JUndefined (m !! "content"));
      Some (type, content)
  | _ => None
  end.

Inductive ToolOutput :=
  | InvalidInput
  | ErrorOutput (error : string)
  | MemoryStored (message : string) (recentMemories : list MemoryItem.t).

Section Tool.
Context `{Host}.

(** [execute]; [agent] is what [getCurrentAgent()] finds. The [catch]
    branch of the source is unreachable here: [saveMemory] does not throw. *)
Definition execute (type : MemoryType) (content : string) (agent : option World)
  : ToolOutput * option World :=
  match agent with
  | None => (ErrorOutput "Agent not available", None)
  | Some w =>
      let (recentMemories, w') := saveMemory type content w in
      (MemoryStored ("Memory stored successfully! I'll remember: " +:+ dq +:+ content +:+ dq)
                    recentMemories,
       Some w')
  end.

(** A tool call: the arguments are checked against [inputSchema], and
    [execute] runs only on arguments that pass. *)
Definition call (input : jsval) (agent : option World) : ToolOutput * option World :=
  match inputSchema input with
  | Some (type, content) => execute type content agent
  | None => (InvalidInput, agent)
  end.

End Tool.
End Tools.

(** ** Start-up self-heal (server.ts, lines 90-110) *)

Module Startup.

(** [{ avatar: undefined, memories: [] }] *)
Definition defaults : jsval :=
  JObj (<["avatar" := JUndefined]> (<["memories" := JArr []]> ∅)).

(** [onStart] on whatever the store handed back as [this.state]; the value
    is the final [this.state]. *)
Definition onStart (st : jsval) : Outcome jsval :=
  let st :=
    if negb (truthy_val st) || negb (String.eqb (typeof st) "object")
    then defaults
    else st in
  obind (getProp st "memories") (fun memories =>
    if negb (isArray memories)
    then Fulfilled (JObj (<["memories" := JArr []]> (spread st)))
    else Fulfilled st).

(** The two fields as a reader of the state sees them: [undefined] when the
    container has no such field. *)
Definition field (k : string) (st : jsval) : jsval :=
  match st with
  | JObj m => default JUndefined (m !! k)
  | _ => JUndefined
  end.

End Startup.

(** ** A concrete host, for running the model on examples *)

(** The examples are ASCII text, on which bytes and UTF-16 code units
    coincide. *)

Definition sampleHost : Host := {|
  generateId n := "id-" +:+ pretty n;
  toISOString ms := pretty ms;
  toLocaleDateString iso := iso;
  getSchedulePrompt ms := "The current date is " +:+ pretty ms;
  replace _ _ s := s;
  trim s := s;
  substring start stop s := String.substring start (stop - start) s
|}.

Definition emptyWorld : World := mkWorld initialState 0 0.

(** A stored avatar with one expertise tag, and an update that passes an
    empty tag list. *)
Definition taggedWorld : World :=
  mkWorld (AgentState.mk (Some (AvatarProfile.mk "id-0" "Alex" EmptyString casual ["typescript"])) [])
          1 0.

Definition clearTags : PartialProfile.t :=
  PartialProfile.mk None None None None (Some []).

(** A tool call whose content is blank. *)
Definition blankNote : jsval :=
  JObj (<["type" := JStr "note"]> (<["content" := JStr EmptyString]> ∅)).

(** Two worlds with the same state and clock but different histories of
    the identifier generator. *)
Definition alexWorld (ids : nat) : World :=
  mkWorld
    (AgentState.mk
       (Some (AvatarProfile.mk "id-0" "Alex" EmptyString professional ["rust"; "wasm"]))
       [MemoryItem.mk "id-1" "2025-01-01" preference "prefers dark mode"])
    ids 1700000000000.

(** An avatar with a bio and three tags, and four memories. *)
Definition busyWorld : World :=
  mkWorld
    (AgentState.mk
       (Some (AvatarProfile.mk "id-0" "Sam" "Builds things" technical ["go"; "sql"; "k8s"]))
       [ MemoryItem.mk "id-1" "2025-01-01" note "first";
         MemoryItem.mk "id-2" "2025-01-02" task "second";
         MemoryItem.mk "id-3" "2025-01-03" preference "third";
         MemoryItem.mk "id-4" "2025-01-04" note "fourth" ])
    5 0.

(** An avatar without tags, and no memory. *)
Definition bareWorld : World :=
  mkWorld
    (AgentState.mk (Some (AvatarProfile.mk "id-0" "Kim" "Writes" playful [])) [])
    1 0.

(** No avatar, and one memory whose content is the text of the
    [professional] instruction. *)
Definition echoWorld : World :=
  mkWorld
    (AgentState.mk None
       [ MemoryItem.mk "id-0" "2025-01-01" note
           "Be formal, precise, and business-like. Maintain a professional demeanor." ])
    1 0.

(** ** The specification's vocabulary *)

Module Spec.

(** The last [k] items of a sequence, in their order. *)
Definition last_items {A : Type} (k : nat) (l : list A) : list A :=
  drop (length l - k) l.

(** [upsertProfile] as the specification words it: the incoming value if
    present and non-empty, else the stored one, else the hard default; the
    identifier of the stored avatar if there is one, else a fresh one. *)
Definition nonempty_string (v : option string) : option string :=
  match v with
  | Some (String c s) => Some (String c s)
  | _ => None
  end.

Definition nonempty_list {A : Type} (v : option (list A)) : option (list A) :=
  match v with
  | Some (x :: l) => Some (x :: l)
  | _ => None
  end.

Definition merge {A : Type} (incoming existing : option A) (hard : A) : A :=
  match incoming, existing with
  | Some v, _ => v
  | None, Some v => v
  | None, None => hard
  end.

Definition upsertProfile (P : PartialProfile.t) (A : option AvatarProfile.t)
    (fresh : string) : AvatarProfile.t :=
  AvatarProfile.mk
    (merge None (AvatarProfile.id <$> A) fresh)
    (merge (nonempty_string (PartialProfile.displayName P))
           (AvatarProfile.displayName <$> A) "Unnamed Avatar")
    (merge (nonempty_string (PartialProfile.bio P))
           (AvatarProfile.bio <$> A) EmptyString)
    (merge (PartialProfile.tone P) (AvatarProfile.tone <$> A) casual)
    (merge (nonempty_list (PartialProfile.expertiseTags P))
           (AvatarProfile.expertiseTags <$> A) []).

(** The tone's behavioural instruction as a total map on the enumeration. *)
Definition instruction (t : Tone) : string :=
  match t with
  | casual => "Be friendly, relaxed, and approachable. Use conversational language."
  | professional => "Be formal, precise, and business-like. Maintain a professional demeanor."
  | playful => "Be fun, energetic, and use humor when appropriate. Keep things light."
  | technical => "Be detailed, accurate, and use technical terminology. Focus on precision."
  end.

Definition tones : list Tone := [casual; professional; playful; technical].

(** The tone in force: the avatar's, or [casual] without an avatar. *)
Definition toneOf (st : AgentState.t) : Tone :=
  match AgentState.avatar st with
  | Some a => AvatarProfile.tone a
  | None => casual
  end.

(** [contains needle hay]: [needle] occurs in [hay]. *)
Fixpoint contains (needle hay : string) : bool :=
  String.prefix needle hay
  || match hay with
     | EmptyString => false
     | String _ rest => contains needle rest
     end.

(** Lines of text, each closed by a line feed. *)
Definition unlines (lines : list string) : string :=
  foldr (fun line rest => line +:+ nl +:+ rest) EmptyString lines.

(** Tags written one after the other with a comma and a space between
    two of them. *)
Definition commaSeparated (tags : list string) : string :=
  match tags with
  | [] => EmptyString
  | first :: others => fold_left (fun text tag => text +:+ ", " +:+ tag) others first
  end.

Section Render.
Context `{Host}.

(** The avatar block: one indicator line without an avatar, else name,
    bio, tone and expertise. *)
Definition avatarBlock (avatar : option AvatarProfile.t) : list string :=
  match avatar with
  | None => ["- No avatar profile set yet. The user can create one."]
  | Some a =>
      [ "- Name: " +:+ AvatarProfile.displayName a;
        "- Bio: " +:+ (if String.eqb (AvatarProfile.bio a) EmptyString then "Not set"
                       else AvatarProfile.bio a);
        "- Tone: " +:+ tone_str (AvatarProfile.tone a);
        "- Expertise: " +:+ (match AvatarProfile.expertiseTags a with
                             | [] => "None specified"
                             | tags => commaSeparated tags
                             end) ]
  end.

(** A memory with its type tag and its date. *)
Definition memoryLine (mem : MemoryItem.t) : string :=
  "- [" +:+ type_str (MemoryItem.type mem) +:+ "] " +:+ MemoryItem.content mem
  +:+ " (" +:+ toLocaleDateString (MemoryItem.createdAt mem) +:+ ")".

(** The three most recent memories, or the indicator line. *)
Definition memoryBlock (memories : list MemoryItem.t) : list string :=
  match last_items 3 memories with
  | [] => ["- No memories stored yet."]
  | recent => memoryLine <$> recent
  end.

Definition renderContext (st : AgentState.t) : string :=
  unlines (["## Current Avatar State"]
           ++ avatarBlock (AgentState.avatar st)
           ++ [EmptyString; "## Recent Memories"]
           ++ memoryBlock (AgentState.memories st)).

End Render.

End Spec.

(** The scenario of the specification: [n] notes with contents
    [m1 .. mn], one per clock tick. *)
Definition numbered (n : nat) : list Call :=
  (fun i => {| at_ms := Z.of_nat i; call_type := note;
               call_content := "m" +:+ pretty i |}) <$> seq 1 n.

(** ** The other tools (tools.ts) *)

Module ToolSet.

(** [schema.optional()]: [undefined], that is a missing key, is accepted. *)
Definition z_optional {A : Type} (schema : jsval -> option A) (v : jsval)
  : option (option A) :=
  match v with
  | JUndefined => Some None
  | _ => Some <$> schema v
  end.

(** [z.enum(["casual", "professional", "playful", "technical"])] *)
Definition z_enum_tone (v : jsval) : option Tone :=
  match v with
  | JStr s =>
      if String.eqb s "casual" then Some casual
      else if String.eqb s "professional" then Some professional
      else if String.eqb s "playful" then Some playful
      else if String.eqb s "technical" then Some technical
      else None
  | _ => None
  end.

(** [z.array(schema)] *)
Definition z_array {A : Type} (schema : jsval -> option A) (v : jsval)
  : option (list A) :=
  match v with
  | JArr l => mapM schema l
  | _ => None
  end.

(** The value under a key of the argument object, [undefined] if missing. *)
Definition arg (m : gmap string jsval) (k : string) : jsval :=
  default JUndefined (m !! k).

(** [inputSchema] of the [saveAvatarProfile] tool (lines 27-34); the
    partial profile is the object that [execute] hands to the agent, which
    never carries an [id]. *)
Definition avatarSchema (input : jsval) : option PartialProfile.t :=
  match input with
  | JObj m =>
      displayName ← z_optional Tools.z_string (arg m "displayName");
      bio ← z_optional Tools.z_string (arg m "bio");
      tone ← z_optional z_enum_tone (arg m "tone");
      expertiseTags ← z_optional (z_array Tools.z_string) (arg m "expertiseTags");
      Some (PartialProfile.mk None displayName bio tone expertiseTags)
  | _ => None
  end.

(** [inputSchema] of the [researchWeb] tool (lines 117-119). *)
Definition researchSchema (input : jsval) : option string :=
  match input with
  | JObj m => Tools.z_string (arg m "query")
  | _ => None
  end.

(** A partial profile as the arguments of a tool call: a key per field
    that is present. *)
Definition set_optional (k : string) (v : option jsval) (m : gmap string jsval)
  : gmap string jsval :=
  match v with
  | Some x => <[k := x]> m
  | None => delete k m
  end.

Definition encodeProfile (P : PartialProfile.t) : jsval :=
  JObj
    (set_optional "displayName" (JStr <$> PartialProfile.displayName P)
       (set_optional "bio" (JStr <$> PartialProfile.bio P)
          (set_optional "tone" ((fun t => JStr (tone_str t)) <$> PartialProfile.tone P)
             (set_optional "expertiseTags"
                ((fun tags => JArr (JStr <$> tags)) <$> PartialProfile.expertiseTags P)
                ∅)))).

(** What a tool hands back to the model. *)
Inductive Output :=
  | Invalid
  | Failure (error : string)
  | AvatarUpdated (message : string) (avatar : AvatarProfile.t)
  | Researched (message : string) (result : ResearchResult)
  | AvatarStateRead (avatar : option AvatarProfile.t)
                    (recentMemories : list MemoryItem.t).

Section Tools.
Context `{Host}.

(** [saveAvatarProfile.execute] (lines 35-59). The [catch] branch is
    unreachable: the agent's method does not throw. *)
Definition saveAvatarProfile_execute (P : PartialProfile.t) (agent : option World)
  : Output * option World :=
  match agent with
  | None => (Failure "Agent not available", None)
  | Some w =>
      let (updatedAvatar, w') := saveAvatarProfile P w in
      (AvatarUpdated "Avatar profile updated successfully!" updatedAvatar, Some w')
  end.

Definition saveAvatarProfile_call (input : jsval) (agent : option World)
  : Output * option World :=
  match avatarSchema input with
  | Some P => saveAvatarProfile_execute P agent
  | None => (Invalid, agent)
  end.

(** [researchWeb.execute] (lines 120-139). *)
Definition researchWeb_execute (fetch : string -> Outcome Response) (query : string)
    (agent : option World) : Output :=
  match agent with
  | None => Failure "Agent not available"
  | Some _ =>
      match researchWeb fetch query with
      | Fulfilled result =>
          Researched ("Research completed for: " +:+ dq +:+ query +:+ dq) result
      | Rejected error => Failure ("Failed to complete research: " +:+ error)
      end
  end.

Definition researchWeb_call (fetch : string -> Outcome Response) (input : jsval)
    (agent : option World) : Output :=
  match researchSchema input with
  | Some query => researchWeb_execute fetch query agent
  | None => Invalid
  end.

(** [getAvatarState.execute] (lines 153-171); [state.avatar || null] is
    the avatar, or [null] as [None]. *)
Definition getAvatarState_execute (agent : option World) : Output :=
  match agent with
  | None => Failure "Agent not available"
  | Some w =>
      let state := eval getAvatarState w in
      AvatarStateRead (AgentState.avatar state) (AgentState.memories state)
  end.

End Tools.
End ToolSet.

(** ** Interleaved use of the store *)

Inductive Op :=
  | SaveMemoryOp (c : Call)
  | SaveProfileOp (P : PartialProfile.t).

Section Ops.
Context `{Host}.

Definition doOp (o : Op) : M unit :=
  match o with
  | SaveMemoryOp c => doCall c;; ret tt
  | SaveProfileOp P => saveAvatarProfile P;; ret tt
  end.

Fixpoint runOps (ops : list Op) : M unit :=
  match ops with
  | [] => ret tt
  | o :: rest => doOp o;; runOps rest
  end.

(** The identifiers of the log are pairwise distinct and come from
    generator positions already used. *)
Definition ids_used (w : World) : Prop :=
  NoDup (MemoryItem.id <$> AgentState.memories (state w))
  /\ Forall (fun item => exists k, (k < idCount w)%nat /\ MemoryItem.id item = generateId k)
            (AgentState.memories (state w)).

End Ops.

(** A profile update between two memory saves. *)
Definition sampleOps : list Op :=
  [ SaveMemoryOp {| at_ms := 1; call_type := task; call_content := "ship it" |};
    SaveProfileOp clearTags;
    SaveMemoryOp {| at_ms := 2; call_type := note; call_content := "likes tea" |} ].

(** The sample world after 50 numbered notes: a full log. *)
Definition fullWorld : World :=
  exec (runCalls (H := sampleHost) (numbered 50) []) emptyWorld.

(** ** Properties of [slice] *)

Section Slice.
Context {A : Type}.
Implicit Types (l : list A) (n : nat).

Lemma slice_neg n l :
  (0 < n)%nat -> slice (- Z.of_nat n) l = Spec.last_items n l.
Proof.
  intros Hn. unfold slice, Spec.last_items.
  destruct (Z.ltb_spec (- Z.of_nat n) 0) as [_|Hge]; [|lia].
  f_equal. lia.
Qed.

Lemma last_items_length n l : length (Spec.last_items n l) = Nat.min n (length l).
Proof. unfold Spec.last_items. rewrite length_drop. lia. Qed.

Lemma last_items_suffix n l : Spec.last_items n l `suffix_of` l.
Proof. apply suffix_drop. Qed.

Lemma last_items_all n l : (length l <= n)%nat -> Spec.last_items n l = l.
Proof.
  intros Hle. unfold Spec.last_items.
  replace (length l - n)%nat with 0%nat by lia. reflexivity.
Qed.

Lemma last_items_app n l k :
  (n <= length k)%nat -> Spec.last_items n (l ++ k) = Spec.last_items n k.
Proof.
  intros Hle. unfold Spec.last_items.
  rewrite length_app, drop_app.
  rewrite (drop_ge l) by lia. simpl. f_equal. lia.
Qed.

(** Trimming twice to the same bound, with items added in between, is
    trimming once. *)
Lemma last_items_snoc n l k :
  Spec.last_items n (Spec.last_items n l ++ k) = Spec.last_items n (l ++ k).
Proof.
  unfold Spec.last_items.
  rewrite !length_app, !length_drop, !drop_app, !length_drop, drop_drop.
  f_equal; f_equal; lia.
Qed.

End Slice.

(** ** The memory log *)

Section MemoryLog.
Context `{Host}.
Implicit Types (w : World) (c : Call) (calls : list Call).

Abbreviation stored w := (AgentState.memories (state w)).

(** The cap of [saveMemory], in either branch of its test, keeps the last
    50 items. *)
Lemma cap_last_items (l : list MemoryItem.t) :
  (if (50 <? length l)%nat then slice (-50) l else l) = Spec.last_items 50 l.
Proof.
  destruct (Nat.ltb_spec 50 (length l)) as [Hlt|Hle].
  - apply (slice_neg 50). lia.
  - symmetry. apply last_items_all. exact Hle.
Qed.

(** [saveMemory] in one step. *)
Lemma saveMemory_run ty content w :
  let item := MemoryItem.mk (generateId (idCount w)) (toISOString (now w)) ty content in
  let kept := Spec.last_items 50 (stored w ++ [item]) in
  saveMemory ty content w =
    (Spec.last_items 5 kept,
     mkWorld (AgentState.mk (AgentState.avatar (state w)) kept) (S (idCount w)) (now w)).
Proof.
  intros item kept. unfold saveMemory, newMemory, callGenerateId, newDate, getState, setState.
  unfold mbind, agent_bind, bind, mret, agent_ret, ret. simpl.
  rewrite cap_last_items. fold item. fold kept.
  rewrite (slice_neg 5) by lia. reflexivity.
Qed.

Lemma doCall_stored c w :
  stored (exec (doCall c) w) =
    Spec.last_items 50
      (stored w ++ [eval (setClock (at_ms c);; newMemory (call_type c) (call_content c)) w]).
Proof.
  unfold doCall, exec, eval, setClock, mbind, agent_bind, bind.
  rewrite saveMemory_run. reflexivity.
Qed.

Lemma doCall_bounded c w : (length (stored (exec (doCall c) w)) <= 50)%nat.
Proof. rewrite doCall_stored, last_items_length. lia. Qed.

Lemma runCalls_cons c calls r0 w :
  exec (runCalls (c :: calls) r0) w
  = exec (runCalls calls (eval (doCall c) w)) (exec (doCall c) w).
Proof.
  unfold exec, eval. cbn [runCalls]. unfold mbind, agent_bind, bind.
  destruct (doCall c w) as [r w1]. reflexivity.
Qed.

Lemma runCalls_nil r0 w : runCalls [] r0 w = (r0, w).
Proof. reflexivity. Qed.

(** After a run of at least one call the log holds at most 50 items. *)
Lemma runCalls_bounded calls : forall c r0 w,
  (length (stored (exec (runCalls (c :: calls) r0) w)) <= 50)%nat.
Proof.
  induction calls as [|c' calls IH]; intros c r0 w; rewrite runCalls_cons.
  - unfold exec at 1. rewrite runCalls_nil. apply doCall_bounded.
  - apply IH.
Qed.

(** Up to the cap, the log after a run is the prior log followed by the
    items of the run. *)
Lemma runCalls_stored calls : forall r0 w,
  Spec.last_items 50 (stored (exec (runCalls calls r0) w))
  = Spec.last_items 50 (stored w ++ appended calls w).
Proof.
  induction calls as [|c calls IH]; intros r0 w.
  - simpl. rewrite app_nil_r. reflexivity.
  - rewrite runCalls_cons, IH, doCall_stored, last_items_snoc.
    simpl. rewrite <- app_assoc. reflexivity.
Qed.

Lemma appended_length calls : forall w, length (appended calls w) = length calls.
Proof.
  induction calls as [|c calls IH]; intros w; simpl; [reflexivity|].
  rewrite IH. reflexivity.
Qed.

Lemma appended_content calls : forall w,
  MemoryItem.content <$> appended calls w = call_content <$> calls.
Proof.
  induction calls as [|c calls IH]; intros w; simpl; [reflexivity|].
  rewrite IH. reflexivity.
Qed.

Lemma doCall_eval c w :
  eval (doCall c) w = Spec.last_items 5 (stored (exec (doCall c) w)).
Proof.
  unfold doCall, exec, eval, setClock, mbind, agent_bind, bind.
  rewrite saveMemory_run. reflexivity.
Qed.

Lemma runCalls_cons_eval c calls r0 w :
  eval (runCalls (c :: calls) r0) w
  = eval (runCalls calls (eval (doCall c) w)) (exec (doCall c) w).
Proof.
  unfold exec, eval. cbn [runCalls]. unfold mbind, agent_bind, bind.
  destruct (doCall c w) as [r w1]. reflexivity.
Qed.

(** A run of at least one call returns the last 5 items of the log it
    leaves. *)
Lemma runCalls_eval calls : forall c r0 w,
  eval (runCalls (c :: calls) r0) w
  = Spec.last_items 5 (stored (exec (runCalls (c :: calls) r0) w)).
Proof.
  induction calls as [|c' calls IH]; intros c r0 w;
    rewrite runCalls_cons, runCalls_cons_eval.
  - unfold eval at 1, exec at 1. rewrite !runCalls_nil. apply doCall_eval.
  - apply IH.
Qed.

(** The log after a run of at least one call. *)
Lemma runCalls_stored_exact c calls r0 w :
  stored (exec (runCalls (c :: calls) r0) w)
  = Spec.last_items 50 (stored w ++ appended (c :: calls) w).
Proof.
  rewrite <- runCalls_stored with (r0 := r0).
  symmetry. apply last_items_all, runCalls_bounded.
Qed.

(** The scenario: 52 numbered notes on the empty state. *)
Lemma numbered_cons n :
  numbered (S n)
  = {| at_ms := 1; call_type := note; call_content := "m" +:+ pretty 1%nat |}
      :: ((fun i => {| at_ms := Z.of_nat i; call_type := note;
                       call_content := "m" +:+ pretty i |}) <$> seq 2 n).
Proof. reflexivity. Qed.

Lemma numbered_52_stored r0 n t :
  MemoryItem.content <$> stored (exec (runCalls (numbered 52) r0) (mkWorld initialState n t))
  = (fun i => "m" +:+ pretty i) <$> seq 3 50.
Proof.
  rewrite numbered_cons, runCalls_stored_exact, <- numbered_cons.
  unfold Spec.last_items. rewrite fmap_drop, fmap_app, appended_content.
  rewrite !length_app, appended_length. vm_compute. reflexivity.
Qed.

Lemma numbered_52_returned r0 n t :
  MemoryItem.content <$> eval (runCalls (numbered 52) r0) (mkWorld initialState n t)
  = ["m48"; "m49"; "m50"; "m51"; "m52"].
Proof.
  rewrite numbered_cons, runCalls_eval, <- numbered_cons.
  unfold Spec.last_items. rewrite fmap_drop.
  rewrite <- (length_fmap MemoryItem.content), numbered_52_stored.
  vm_compute. reflexivity.
Qed.

(** C2: after every call of [saveMemory], alone or at the end of any run
    of calls from any prior state, the log holds at most 50 items and is
    the last 50 of the prior log followed by the appended items; once 50 or
    more items have been appended it is exactly the last 50 appended items,
    in the order of their insertion; 52 notes [m1 .. m52] on the empty
    state leave exactly [m3 .. m52]. *)
Theorem saveMemory_fifo_capacity w c calls r0 many n t
    (Hmany : (50 <= length many)%nat) :
  (length (stored (exec (doCall c) w)) <= 50)%nat
  /\ (length (stored (exec (runCalls (c :: calls) r0) w)) <= 50)%nat
  /\ stored (exec (runCalls (c :: calls) r0) w)
     = Spec.last_items 50 (stored w ++ appended (c :: calls) w)
  /\ stored (exec (runCalls many r0) w) = Spec.last_items 50 (appended many w)
  /\ MemoryItem.content
       <$> stored (exec (runCalls (numbered 52) r0) (mkWorld initialState n t))
     = (fun i => "m" +:+ pretty i) <$> seq 3 50.
Proof.
  split; [apply doCall_bounded|].
  split; [apply runCalls_bounded|].
  split; [apply runCalls_stored_exact|].
  split; [|apply numbered_52_stored].
  destruct many as [|c1 many1]; [simpl in Hmany; lia|].
  rewrite runCalls_stored_exact. apply last_items_app.
  rewrite appended_length. exact Hmany.
Qed.

(** C3: what [saveMemory] returns is the last [min 5 (length log)] items
    of the log it has just stored (after the cap), in their order: never
    more than 5 items, so not the full log once that is longer; the 52nd
    call of the numbered scenario returns [m48 .. m52]. *)
Theorem saveMemory_returns_recent ty content w r0 n t :
  let w' := exec (saveMemory ty content) w in
  let r := eval (saveMemory ty content) w in
  r = Spec.last_items (Nat.min 5 (length (stored w'))) (stored w')
  /\ length r = Nat.min 5 (length (stored w'))
  /\ r `suffix_of` stored w'
  /\ (length r <= 5)%nat
  /\ MemoryItem.content
       <$> eval (runCalls (numbered 52) r0) (mkWorld initialState n t)
     = ["m48"; "m49"; "m50"; "m51"; "m52"].
Proof.
  intros w' r. subst w' r.
  assert (Hscenario := numbered_52_returned r0 n t).
  revert Hscenario. generalize (runCalls (numbered 52) r0). intros run Hscenario.
  unfold eval at 1 2 3 4, exec.
  rewrite saveMemory_run. cbn [fst snd state AgentState.memories].
  set (kept := Spec.last_items 50 _).
  assert (Hr : Spec.last_items 5 kept
               = Spec.last_items (Nat.min 5 (length kept)) kept).
  { unfold Spec.last_items. f_equal. lia. }
  split; [exact Hr|].
  split; [rewrite last_items_length; reflexivity|].
  split; [apply last_items_suffix|].
  split; [rewrite last_items_length; lia|].
  exact Hscenario.
Qed.

(** C6: [getAvatarState] returns the stored avatar, present or absent, with
    at most 5 memories that are the last ones of the stored log, in its
    order; it leaves the state as it is; on the initial state it returns no
    avatar and no memories. *)
Theorem getAvatarState_snapshot w n t :
  let r := eval getAvatarState w in
  AgentState.avatar r = AgentState.avatar (state w)
  /\ (length (AgentState.memories r) <= 5)%nat
  /\ AgentState.memories r `suffix_of` stored w
  /\ AgentState.memories r = Spec.last_items 5 (stored w)
  /\ exec getAvatarState w = w
  /\ eval getAvatarState (mkWorld initialState n t) = AgentState.mk None [].
Proof.
  unfold eval, exec, getAvatarState, getState, mbind, agent_bind, bind, mret, agent_ret, ret.
  cbn [fst snd AgentState.avatar AgentState.memories state initialState].
  rewrite (slice_neg 5) by lia.
  split; [reflexivity|].
  split; [rewrite last_items_length; lia|].
  split; [apply last_items_suffix|].
  repeat split; reflexivity.
Qed.

End MemoryLog.

(** ** The avatar profile *)

Section Profile.
Context `{Host}.

(** What [||] chains amount to at each field type. *)
Lemma or_chain_string (x y : option string) (d : string) :
  or_else (or_undef x y) d
  = Spec.merge (Spec.nonempty_string x) (Spec.nonempty_string y) d.
Proof. destruct x as [[|a s]|], y as [[|b s']|]; reflexivity. Qed.

Lemma or_chain_tone (x y : option Tone) (d : Tone) :
  or_else (or_undef x y) d = Spec.merge x y d.
Proof. destruct x as [[]|], y as [[]|]; reflexivity. Qed.

Lemma or_chain_array {A : Type} (x y : option (list A)) (d : list A) :
  or_else (or_undef x y) d = Spec.merge x y d.
Proof. destruct x, y; reflexivity. Qed.

Lemma merge_empty_default (x y : option string) :
  Spec.merge x (Spec.nonempty_string y) EmptyString = Spec.merge x y EmptyString.
Proof. destruct x as [v|], y as [[|b s]|]; reflexivity. Qed.

Lemma or_generateId_run (a : option string) w :
  or_generateId a w
  = match Spec.nonempty_string a with
    | Some v => (v, w)
    | None => (generateId (idCount w), mkWorld (state w) (S (idCount w)) (now w))
    end.
Proof. destruct a as [[|c s]|]; reflexivity. Qed.

(** C1 (as the code has it): [saveAvatarProfile] always returns a complete
    profile and stores it as the avatar, leaving the memories alone. The
    name is the incoming one if present and non-empty, else the stored one
    if there is an avatar with a non-empty name, else ["Unnamed Avatar"];
    the bio is the incoming one if present and non-empty, else the stored
    one, else empty; the tone is the incoming one if present, else the
    stored one, else [casual]; the tags are the incoming list whenever one
    is present, the empty list included, else the stored list, else empty;
    the identifier is the stored one whenever that is a non-empty string,
    and only otherwise the next one of the generator. *)
Theorem saveAvatarProfile_merge (P : PartialProfile.t) (w : World) :
  let A := AgentState.avatar (state w) in
  let r := eval (saveAvatarProfile P) w in
  r = AvatarProfile.mk
        (Spec.merge (Spec.nonempty_string (AvatarProfile.id <$> A)) None
                    (generateId (idCount w)))
        (Spec.merge (Spec.nonempty_string (PartialProfile.displayName P))
                    (Spec.nonempty_string (AvatarProfile.displayName <$> A))
                    "Unnamed Avatar")
        (Spec.merge (Spec.nonempty_string (PartialProfile.bio P))
                    (AvatarProfile.bio <$> A) EmptyString)
        (Spec.merge (PartialProfile.tone P) (AvatarProfile.tone <$> A) casual)
        (Spec.merge (PartialProfile.expertiseTags P)
                    (AvatarProfile.expertiseTags <$> A) [])
  /\ state (exec (saveAvatarProfile P) w)
     = AgentState.mk (Some r) (AgentState.memories (state w))
  /\ AvatarProfile.id
       (eval (saveAvatarProfile PartialProfile.empty) (exec (saveAvatarProfile P) w))
     = Spec.merge (Spec.nonempty_string (Some (AvatarProfile.id r))) None
                  (generateId (idCount (exec (saveAvatarProfile P) w))).
Proof.
  intros A r.
  assert (Hrun : forall Q v,
    saveAvatarProfile Q v
    = let id := or_generateId (AvatarProfile.id <$> AgentState.avatar (state v)) v in
      let a := AvatarProfile.mk (fst id)
        (Spec.merge (Spec.nonempty_string (PartialProfile.displayName Q))
           (Spec.nonempty_string (AvatarProfile.displayName <$> AgentState.avatar (state v)))
           "Unnamed Avatar")
        (Spec.merge (Spec.nonempty_string (PartialProfile.bio Q))
           (AvatarProfile.bio <$> AgentState.avatar (state v)) EmptyString)
        (Spec.merge (PartialProfile.tone Q)
           (AvatarProfile.tone <$> AgentState.avatar (state v)) casual)
        (Spec.merge (PartialProfile.expertiseTags Q)
           (AvatarProfile.expertiseTags <$> AgentState.avatar (state v)) []) in
      (a, mkWorld (AgentState.mk (Some a) (AgentState.memories (state v)))
                  (idCount (snd id)) (now v))).
  { intros Q v. unfold saveAvatarProfile, getState, setState.
    unfold mbind, agent_bind, bind, mret, agent_ret, ret. cbn [state].
    rewrite or_generateId_run.
    rewrite !or_chain_string, or_chain_tone, or_chain_array, merge_empty_default.
    destruct (Spec.nonempty_string (AvatarProfile.id <$> AgentState.avatar (state v)));
      reflexivity. }
  subst r. unfold eval, exec. rewrite !Hrun. cbn zeta. cbn [fst snd state].
  rewrite or_generateId_run. fold A.
  split; [|split].
  - destruct (Spec.nonempty_string (AvatarProfile.id <$> A)); reflexivity.
  - reflexivity.
  - cbn [AvatarProfile.id AgentState.avatar fmap option_fmap option_map].
    rewrite or_generateId_run. cbn [state AgentState.avatar fmap option_fmap option_map AvatarProfile.id].
    destruct (Spec.nonempty_string (Some _)); reflexivity.
Qed.

End Profile.

(** The first scenario of the specification, on the sample host. *)
Example upsert_scenario :
  let first := saveAvatarProfile (H := sampleHost)
                 (PartialProfile.mk None (Some "Alex") None None None) in
  let second := saveAvatarProfile (H := sampleHost)
                  (PartialProfile.mk None None None (Some professional) None) in
  eval first emptyWorld = AvatarProfile.mk "id-0" "Alex" EmptyString casual []
  /\ eval second (exec first emptyWorld) = AvatarProfile.mk "id-0" "Alex" EmptyString professional [].
Proof. split; vm_compute; reflexivity. Qed.

(** C1 as stated fails: an incoming empty tag list is present but empty, so
    the stored tags should carry over, yet the code stores the empty list. *)
Lemma saveAvatarProfile_empty_tags_counterexample :
  AvatarProfile.expertiseTags (eval (saveAvatarProfile (H := sampleHost) clearTags) taggedWorld)
  = []
  /\ AvatarProfile.expertiseTags
       (Spec.upsertProfile clearTags (AgentState.avatar (state taggedWorld))
          (generateId (Host := sampleHost) (idCount taggedWorld)))
     = ["typescript"]
  /\ eval (saveAvatarProfile (H := sampleHost) clearTags) taggedWorld
     <> Spec.upsertProfile clearTags (AgentState.avatar (state taggedWorld))
          (generateId (Host := sampleHost) (idCount taggedWorld)).
Proof.
  split; [vm_compute; reflexivity|].
  split; [vm_compute; reflexivity|].
  vm_compute. discriminate.
Qed.

(** ** The [saveMemory] tool *)

Section ToolBoundary.
Context `{Host}.

Lemma z_enum_type_str ty : Tools.z_enum_type (JStr (type_str ty)) = Some ty.
Proof. destruct ty; reflexivity. Qed.

Lemma inputSchema_accepts ty content (m : gmap string jsval) :
  Tools.inputSchema
    (JObj (<["type" := JStr (type_str ty)]> (<["content" := JStr content]> m)))
  = Some (ty, content).
Proof.
  unfold Tools.inputSchema.
  rewrite lookup_insert_eq, lookup_insert_ne by discriminate.
  rewrite lookup_insert_eq. cbn [default from_option id].
  rewrite z_enum_type_str. reflexivity.
Qed.

Lemma inputSchema_no_content (m : gmap string jsval) :
  Tools.inputSchema (JObj (delete "content" m)) = None.
Proof.
  unfold Tools.inputSchema. rewrite lookup_delete_eq. cbn [default from_option id].
  destruct (Tools.z_enum_type _); reflexivity.
Qed.

(** C4 (as the code has it): the tool boundary turns away, before the
    store is touched, a call whose [content] is missing; a call whose
    [type] is one of the three and whose [content] is any string, the empty
    one included, reaches [saveMemory], and the item with exactly that
    content becomes the last item of the log. *)
Theorem saveMemory_tool_boundary ty content (m : gmap string jsval) w agent :
  let input := JObj (<["type" := JStr (type_str ty)]> (<["content" := JStr content]> m)) in
  Tools.call (JObj (delete "content" m)) agent = (Tools.InvalidInput, agent)
  /\ snd (Tools.call input (Some w)) = Some (exec (saveMemory ty content) w)
  /\ MemoryItem.content <$> last (AgentState.memories (state (exec (saveMemory ty content) w)))
     = Some content.
Proof.
  intros input. subst input. unfold Tools.call.
  rewrite inputSchema_no_content, inputSchema_accepts.
  split; [reflexivity|]. unfold Tools.execute, exec.
  split; [destruct (saveMemory ty content w); reflexivity|].
  rewrite saveMemory_run. cbn [snd state AgentState.memories].
  unfold Spec.last_items. rewrite length_app. cbn [length].
  rewrite drop_app_le by lia. rewrite last_snoc. reflexivity.
Qed.

End ToolBoundary.

(** C4 as stated fails: a call with blank content passes the boundary and
    an item with empty content is stored. *)
Lemma saveMemory_blank_content_counterexample :
  Tools.inputSchema blankNote = Some (note, EmptyString)
  /\ (fun w => MemoryItem.content <$> AgentState.memories (state w))
       <$> snd (Tools.call (H := sampleHost) blankNote (Some emptyWorld))
     = Some [EmptyString]
  /\ snd (Tools.call (H := sampleHost) blankNote (Some emptyWorld)) <> Some emptyWorld.
Proof.
  split; [vm_compute; reflexivity|].
  split; [vm_compute; reflexivity|].
  vm_compute. discriminate.
Qed.

(** ** The context assembler *)

Section Assembler.
Context `{Host}.

Lemma append_assoc (a b c : string) : (a +:+ b) +:+ c = a +:+ b +:+ c.
Proof.
  induction a as [|x a IH]; [reflexivity|].
  change (String x ((a +:+ b) +:+ c) = String x (a +:+ b +:+ c)).
  f_equal. exact IH.
Qed.

Lemma append_empty_r (a : string) : a +:+ EmptyString = a.
Proof.
  induction a as [|x a IH]; [reflexivity|].
  change (String x (a +:+ EmptyString) = String x a).
  f_equal. exact IH.
Qed.

Lemma unlines_app (l k : list string) :
  Spec.unlines (l ++ k) = Spec.unlines l +:+ Spec.unlines k.
Proof.
  induction l as [|x l IH]; simpl; [reflexivity|].
  rewrite IH, !append_assoc. reflexivity.
Qed.

(** The loop over the recent memories adds one line per memory, in order. *)
Lemma memory_loop (recent : list MemoryItem.t) : forall context,
  fold_left
    (fun context mem =>
       context +:+ "- [" +:+ type_str (MemoryItem.type mem) +:+ "] "
         +:+ MemoryItem.content mem +:+ " ("
         +:+ toLocaleDateString (MemoryItem.createdAt mem) +:+ ")" +:+ nl)
    recent context
  = context +:+ Spec.unlines (Spec.memoryLine <$> recent).
Proof.
  induction recent as [|mem recent IH]; intros context.
  - simpl. rewrite append_empty_r. reflexivity.
  - cbn [fold_left fmap list_fmap Spec.unlines foldr]. rewrite IH.
    unfold Spec.memoryLine. rewrite !append_assoc. reflexivity.
Qed.

(** [join] with a comma and a space writes the tags as the specification
    has them. *)
Lemma commaSeparated_from (others : list string) : forall before first : string,
  fold_left (fun text tag => text +:+ ", " +:+ tag) others (before +:+ first)
  = before +:+ fold_left (fun text tag => text +:+ ", " +:+ tag) others first.
Proof.
  induction others as [|tag others IH]; intros before first; [reflexivity|].
  cbn [fold_left]. rewrite <- IH, append_assoc. reflexivity.
Qed.

Lemma join_commaSeparated (tags : list string) :
  join ", " tags = Spec.commaSeparated tags.
Proof.
  destruct tags as [|first others]; [reflexivity|].
  revert first. induction others as [|tag others IH]; intros first; [reflexivity|].
  change (join ", " (first :: tag :: others))
    with (first +:+ ", " +:+ join ", " (tag :: others)).
  rewrite IH. unfold Spec.commaSeparated. cbn [fold_left].
  rewrite <- !commaSeparated_from. reflexivity.
Qed.

Lemma buildContextString_run w :
  buildContextString w = (Spec.renderContext (state w), w).
Proof.
  unfold buildContextString, getState, mbind, agent_bind, bind, mret, agent_ret, ret.
  f_equal. unfold Spec.renderContext, Spec.memoryBlock.
  rewrite (slice_neg 3) by lia.
  rewrite !unlines_app.
  destruct (Spec.last_items 3 (AgentState.memories (state w))) as [|m recent] eqn:Hrecent.
  - destruct (AgentState.avatar (state w)) as [a|].
    + cbn [length Nat.ltb Nat.leb Spec.avatarBlock].
      rewrite join_commaSeparated.
      destruct (AvatarProfile.bio a) as [|c bio], (AvatarProfile.expertiseTags a) as [|tag tags];
        cbn; rewrite ?append_assoc; reflexivity.
    + cbn. reflexivity.
  - cbn [length Nat.ltb Nat.leb]. rewrite memory_loop.
    destruct (AgentState.avatar (state w)) as [a|].
    + cbn [Spec.avatarBlock].
      rewrite join_commaSeparated.
      destruct (AvatarProfile.bio a) as [|c bio], (AvatarProfile.expertiseTags a) as [|tag tags];
        cbn; rewrite ?append_assoc; reflexivity.
    + cbn. reflexivity.
Qed.

(** C7: the context that [buildContextString] renders is the heading, the
    avatar block (the avatar's name, its bio or [Not set], its tone, its
    tags joined by a comma or [None specified]; or the line saying that no
    avatar is set), the memories heading, and then the 3 most recent
    memories in order, each with its type tag and the date made from
    [createdAt], or the line saying that no memories are stored. The text
    is written out for an avatar without a bio and one memory, for an
    avatar with a bio, three tags and four memories (of which the oldest is
    left out), for an avatar without tags or memories, and for the empty
    state. *)
Theorem buildContextString_renders w m ms n t :
  eval buildContextString w = Spec.renderContext (state w)
  /\ exec buildContextString w = w
  /\ eval buildContextString (alexWorld n)
     = Spec.unlines
         [ "## Current Avatar State";
           "- Name: Alex";
           "- Bio: Not set";
           "- Tone: professional";
           "- Expertise: rust, wasm";
           EmptyString;
           "## Recent Memories";
           "- [preference] prefers dark mode (" +:+ toLocaleDateString "2025-01-01" +:+ ")" ]
  /\ eval buildContextString busyWorld
     = Spec.unlines
         [ "## Current Avatar State";
           "- Name: Sam";
           "- Bio: Builds things";
           "- Tone: technical";
           "- Expertise: go, sql, k8s";
           EmptyString;
           "## Recent Memories";
           "- [task] second (" +:+ toLocaleDateString "2025-01-02" +:+ ")";
           "- [preference] third (" +:+ toLocaleDateString "2025-01-03" +:+ ")";
           "- [note] fourth (" +:+ toLocaleDateString "2025-01-04" +:+ ")" ]
  /\ eval buildContextString bareWorld
     = Spec.unlines
         [ "## Current Avatar State";
           "- Name: Kim";
           "- Bio: Writes";
           "- Tone: playful";
           "- Expertise: None specified";
           EmptyString;
           "## Recent Memories";
           "- No memories stored yet." ]
  /\ Spec.memoryBlock (m :: ms) = Spec.memoryLine <$> Spec.last_items 3 (m :: ms)
  /\ length (Spec.memoryBlock (m :: ms)) = Nat.min 3 (length (m :: ms))
  /\ Spec.memoryBlock [] = ["- No memories stored yet."]
  /\ eval buildContextString (mkWorld initialState n t)
     = "## Current Avatar State" +:+ nl
       +:+ "- No avatar profile set yet. The user can create one." +:+ nl
       +:+ nl
       +:+ "## Recent Memories" +:+ nl
       +:+ "- No memories stored yet." +:+ nl.
Proof.
  unfold eval, exec. rewrite !buildContextString_run. cbn [fst snd].
  split; [reflexivity|]. split; [reflexivity|].
  split; [vm_compute; reflexivity|]. split; [vm_compute; reflexivity|].
  split; [vm_compute; reflexivity|].
  assert (Hblock : Spec.memoryBlock (m :: ms)
                   = Spec.memoryLine <$> Spec.last_items 3 (m :: ms)).
  { unfold Spec.memoryBlock.
    destruct (Spec.last_items 3 (m :: ms)) as [|x recent] eqn:Hrecent; [|reflexivity].
    apply (f_equal length) in Hrecent. rewrite last_items_length in Hrecent.
    simpl in Hrecent. lia. }
  split; [exact Hblock|].
  split; [rewrite Hblock, length_fmap, last_items_length; reflexivity|].
  split; reflexivity.
Qed.

Lemma toneInstructions_total t :
  toneInstructions !! tone_str t = Some (Spec.instruction t).
Proof. destruct t; vm_compute; reflexivity. Qed.

Lemma getSystemPrompt_run w :
  getSystemPrompt w
  = (promptIntro +:+ tone_str (Spec.toneOf (state w)) +:+ ") in ALL responses: "
       +:+ Spec.instruction (Spec.toneOf (state w))
       +:+ promptRules
       +:+ getSchedulePrompt (now w) +:+ nl +:+ nl
       +:+ Spec.renderContext (state w),
     w).
Proof.
  unfold getSystemPrompt, getState, newDate, mbind, agent_bind, bind, mret, agent_ret, ret.
  rewrite buildContextString_run.
  assert (Htone : or_else (tone_str <$> (AvatarProfile.tone <$> AgentState.avatar (state w)))
                          "casual"
                  = tone_str (Spec.toneOf (state w))).
  { unfold Spec.toneOf. destruct (AgentState.avatar (state w)) as [a|]; [|reflexivity].
    cbn [fmap option_fmap option_map]. destruct (AvatarProfile.tone a); reflexivity. }
  rewrite Htone, toneInstructions_total. reflexivity.
Qed.

Lemma prefix_append (needle rest : string) :
  String.prefix needle (needle +:+ rest) = true.
Proof.
  induction needle as [|c needle IH]; [destruct rest; reflexivity|].
  change (String c needle +:+ rest) with (String c (needle +:+ rest)).
  cbn [String.prefix]. destruct (ascii_dec c c) as [_|Hne]; [exact IH|congruence].
Qed.

Lemma contains_append_r (needle before rest : string) :
  Spec.contains needle rest = true -> Spec.contains needle (before +:+ rest) = true.
Proof.
  intros Hrest. induction before as [|c before IH]; [exact Hrest|].
  change (String c before +:+ rest) with (String c (before +:+ rest)).
  cbn [Spec.contains]. rewrite IH. apply orb_true_r.
Qed.

Lemma contains_here (needle rest : string) :
  Spec.contains needle (needle +:+ rest) = true.
Proof.
  destruct (needle +:+ rest) eqn:Htext; cbn [Spec.contains];
    rewrite <- Htext, prefix_append; reflexivity.
Qed.

(** C8 (as the code has it): the system prompt carries, in its second rule
    and before the schedule prompt and the rendered context, the
    instruction that the tone in force selects (the avatar's tone, [casual]
    without an avatar), so that instruction always occurs in the text; the
    lookup is defined on each of the four tones, the four instructions are
    distinct, and none of them occurs in the fixed text of the prompt. What
    the state and the schedule prompt bring into the text is not
    filtered. *)
Theorem getSystemPrompt_tone_instruction w :
  eval getSystemPrompt w
  = promptIntro +:+ tone_str (Spec.toneOf (state w)) +:+ ") in ALL responses: "
      +:+ Spec.instruction (Spec.toneOf (state w))
      +:+ promptRules
      +:+ getSchedulePrompt (now w) +:+ nl +:+ nl
      +:+ eval buildContextString w
  /\ Spec.contains (Spec.instruction (Spec.toneOf (state w))) (eval getSystemPrompt w) = true
  /\ (forall t, toneInstructions !! tone_str t = Some (Spec.instruction t))
  /\ (forall t, t ∈ Spec.tones)
  /\ NoDup (Spec.instruction <$> Spec.tones)
  /\ (forall t, Spec.contains (Spec.instruction t) promptIntro = false)
  /\ (forall t, Spec.contains (Spec.instruction t) promptRules = false).
Proof.
  unfold eval. rewrite getSystemPrompt_run, buildContextString_run. cbn [fst].
  split; [reflexivity|].
  split; [do 3 apply contains_append_r; apply contains_here|].
  split; [apply toneInstructions_total|].
  split; [intros []; unfold Spec.tones; set_solver|].
  split; [apply (bool_decide_unpack (NoDup (Spec.instruction <$> Spec.tones)));
          vm_compute; exact I|].
  split; intros []; vm_compute; reflexivity.
Qed.

(** C5: the system prompt is a function of the state and of the clock
    alone: two worlds that agree on both, whatever else differs, get the
    same text, and producing it changes nothing. *)
Theorem getSystemPrompt_deterministic w1 w2
    (Hstate : state w1 = state w2) (Hnow : now w1 = now w2) :
  eval getSystemPrompt w1 = eval getSystemPrompt w2
  /\ eval buildContextString w1 = eval buildContextString w2
  /\ exec getSystemPrompt w1 = w1.
Proof.
  unfold eval, exec. rewrite !getSystemPrompt_run, !buildContextString_run. cbn [fst snd].
  rewrite Hstate, Hnow. repeat split; reflexivity.
Qed.

End Assembler.

(** C8 as stated fails: without an avatar the tone is [casual], yet with a
    memory that quotes the [professional] instruction the prompt contains
    two of the four instructions, not exactly one. *)
Lemma getSystemPrompt_two_instructions_counterexample :
  Spec.toneOf (state echoWorld) = casual
  /\ Spec.contains (Spec.instruction casual)
       (eval (getSystemPrompt (H := sampleHost)) echoWorld) = true
  /\ Spec.contains (Spec.instruction professional)
       (eval (getSystemPrompt (H := sampleHost)) echoWorld) = true
  /\ Spec.instruction casual <> Spec.instruction professional.
Proof.
  split; [reflexivity|].
  split; [vm_compute; reflexivity|].
  split; [vm_compute; reflexivity|].
  discriminate.
Qed.

Lemma getSystemPrompt_deterministic_witness :
  eval (getSystemPrompt (H := sampleHost)) (alexWorld 2)
  = eval (getSystemPrompt (H := sampleHost)) (alexWorld 7)
  /\ eval (buildContextString (H := sampleHost)) (alexWorld 2)
     = eval (buildContextString (H := sampleHost)) (alexWorld 7)
  /\ exec (getSystemPrompt (H := sampleHost)) (alexWorld 2) = alexWorld 2.
Proof.
  apply (getSystemPrompt_deterministic (H := sampleHost) (alexWorld 2) (alexWorld 7));
    reflexivity.
Defined.

Lemma saveMemory_fifo_capacity_witness :
  (length (AgentState.memories (state (exec (doCall (H := sampleHost)
      {| at_ms := 5; call_type := task; call_content := "ship it" |}) (alexWorld 2)))) <= 50)%nat
  /\ (length (AgentState.memories (state (exec (runCalls (H := sampleHost)
        ({| at_ms := 5; call_type := task; call_content := "ship it" |} :: numbered 3)
        []) (alexWorld 2)))) <= 50)%nat
  /\ AgentState.memories (state (exec (runCalls (H := sampleHost)
        ({| at_ms := 5; call_type := task; call_content := "ship it" |} :: numbered 3)
        []) (alexWorld 2)))
     = Spec.last_items 50
         (AgentState.memories (state (alexWorld 2))
          ++ appended (H := sampleHost)
               ({| at_ms := 5; call_type := task; call_content := "ship it" |} :: numbered 3)
               (alexWorld 2))
  /\ AgentState.memories (state (exec (runCalls (H := sampleHost) (numbered 51) [])
                                   (alexWorld 2)))
     = Spec.last_items 50 (appended (H := sampleHost) (numbered 51) (alexWorld 2))
  /\ MemoryItem.content
       <$> AgentState.memories (state (exec (runCalls (H := sampleHost) (numbered 52) [])
                                         (mkWorld initialState 0 0)))
     = (fun i => "m" +:+ pretty i) <$> seq 3 50.
Proof.
  apply (saveMemory_fifo_capacity (H := sampleHost) (alexWorld 2)
           {| at_ms := 5; call_type := task; call_content := "ship it" |}
           (numbered 3) [] (numbered 51) 0%nat 0).
  vm_compute. lia.
Defined.

(** ** Start-up *)

Section StartupProofs.

(** A decimal numeral never begins with a character that is not a digit. *)
Lemma pretty_N_go_head (x : N) : forall (s : string) (c : ascii) (s' : string),
  (forall d, pretty_N_char d <> c) ->
  (forall s'', s <> String c s'') ->
  pretty_N_go x s <> String c s'.
Proof.
  induction (N.lt_wf_0 x) as [x _ IH]; intros s c s' Hc Hs.
  destruct (decide (x = 0%N)) as [->|Hx].
  - rewrite pretty_N_go_0. apply Hs.
  - rewrite pretty_N_go_step by lia. apply IH.
    + apply N.div_lt; lia.
    + exact Hc.
    + intros s'' Heq. injection Heq as Hhead _. exact (Hc _ Hhead).
Qed.

Lemma pretty_nat_head (i : nat) (c : ascii) (s' : string) :
  (forall d, pretty_N_char d <> c) -> pretty i <> String c s'.
Proof.
  intros Hc. unfold pretty, pretty_nat, pretty, pretty_N.
  destruct (decide (N.of_nat i = 0%N)) as [_|_].
  - intros Heq. injection Heq as Hhead _. exact (Hc 0%N Hhead).
  - apply pretty_N_go_head; [exact Hc|]. intros s'' Heq. discriminate Heq.
Qed.

(** The spread of an array has no property whose name begins with a
    letter. *)
Lemma indexed_named {A : Type} (f : A -> jsval) (l : list A) (c : ascii) (rest : string) :
  (forall d, pretty_N_char d <> c) -> indexed f l !! String c rest = None.
Proof.
  intros Hc. unfold indexed. apply not_elem_of_list_to_map_1.
  intros Hin. apply list_elem_of_fmap in Hin as [[k v] [Hk Hin]].
  apply list_elem_of_lookup in Hin as [i Hi].
  rewrite list_lookup_imap in Hi.
  destruct (l !! i) as [x|]; [|discriminate Hi].
  cbn in Hi. injection Hi as Hkey _. cbn in Hk. subst k.
  exact (pretty_nat_head i c rest Hc Hkey).
Qed.

Lemma letter_a_not_digit d : pretty_N_char d <> "a"%char.
Proof. unfold pretty_N_char. repeat case_match; discriminate. Qed.

Lemma defaults_avatar : Startup.field "avatar" Startup.defaults = JUndefined.
Proof. vm_compute. reflexivity. Qed.

Lemma defaults_memories : Startup.field "memories" Startup.defaults = JArr [].
Proof. vm_compute. reflexivity. Qed.

(** A state that is falsy or is no object is replaced by the defaults,
    whose [memories] is an array already. *)
Lemma onStart_reset (st : jsval) :
  negb (truthy_val st) || negb (String.eqb (typeof st) "object") = true ->
  Startup.onStart st = Fulfilled Startup.defaults.
Proof.
  intros Hreset. unfold Startup.onStart. rewrite Hreset.
  change (getProp Startup.defaults "memories")
    with (Fulfilled (A := jsval) (Startup.field "memories" Startup.defaults)).
  rewrite defaults_memories. reflexivity.
Qed.

(** C9: [onStart] never throws. A state that is missing or is no object is
    replaced by [{ avatar: undefined, memories: [] }]; in an object whose
    [memories] is not an array only that field is replaced, by the empty
    array; an object whose [memories] is an array is left as it is. In every
    case the avatar that a reader sees afterwards is the one that was there
    before (none when the container had none), and [memories] is an
    array. *)
Theorem onStart_self_heal (st : jsval) :
  exists st',
    Startup.onStart st = Fulfilled st'
    /\ Startup.field "avatar" st' = Startup.field "avatar" st
    /\ Startup.field "memories" st'
       = (if isArray (Startup.field "memories" st)
          then Startup.field "memories" st
          else JArr [])
    /\ match st with
       | JObj m =>
           st' = if isArray (Startup.field "memories" st)
                 then st
                 else JObj (<["memories" := JArr []]> m)
       | JArr l => st' = JObj (<["memories" := JArr []]> (indexed (fun x => x) l))
       | _ => st' = Startup.defaults
       end.
Proof.
  destruct st as [| |b|z|s|l|m].
  1-5: exists Startup.defaults;
       (split; [apply onStart_reset; cbn [truthy_val typeof];
                apply orb_true_iff;
                first [left; reflexivity | right; reflexivity]|]);
       cbn [Startup.field isArray]; rewrite defaults_avatar, defaults_memories;
       repeat split; reflexivity.
  - exists (JObj (<["memories" := JArr []]> (indexed (fun x => x) l))).
    split; [reflexivity|].
    split.
    { unfold Startup.field. rewrite lookup_insert_ne by discriminate.
      rewrite (indexed_named _ l "a" "vatar" letter_a_not_digit). reflexivity. }
    split; [|reflexivity].
    unfold Startup.field. rewrite lookup_insert_eq. reflexivity.
  - unfold Startup.onStart, Startup.field.
    cbn [truthy_val typeof negb orb String.eqb Ascii.eqb Bool.eqb getProp obind].
    destruct (isArray (default JUndefined (m !! "memories"))) eqn:Harr.
    + exists (JObj m). cbn [negb]. repeat split; reflexivity.
    + exists (JObj (<["memories" := JArr []]> m)). cbn [negb spread].
      rewrite lookup_insert_ne by discriminate. rewrite lookup_insert_eq.
      repeat split; reflexivity.
Qed.

End StartupProofs.

(** ** Web research *)

Section Research.
Context `{Host}.

Lemma list_ascii_append (a b : string) :
  list_ascii_of_string (a +:+ b) = list_ascii_of_string a ++ list_ascii_of_string b.
Proof.
  induction a as [|x a IH]; [reflexivity|].
  change (x :: list_ascii_of_string (a +:+ b)
          = x :: (list_ascii_of_string a ++ list_ascii_of_string b)).
  f_equal. exact IH.
Qed.

(** A snippet cut from a page ends in three dots, which the fallback text
    does not. *)
Lemma snippet_not_fallback (cut q : string) :
  cut +:+ "..." <> fallbackSnippet q.
Proof.
  intros Heq.
  apply (f_equal (fun s => Spec.last_items 2 (list_ascii_of_string s))) in Heq.
  unfold fallbackSnippet in Heq.
  rewrite <- !append_assoc in Heq.
  rewrite !list_ascii_append in Heq.
  rewrite !last_items_app in Heq by (vm_compute; lia).
  vm_compute in Heq. discriminate Heq.
Qed.

(** C10 (as the code has it): [researchWeb] never rejects; its result
    carries the query it was given and the fixed source; the snippet is the
    fallback text when the request or the reading of the body throws, and
    otherwise, whatever the status of the response, what the engine's
    [substring(0, 500)] cuts from the stripped body, followed by three
    dots; a text that ends in three dots is never the fallback text. *)
Theorem researchWeb_degrades (fetch : string -> Outcome Response) (q : string) :
  exists r,
    researchWeb fetch q = Fulfilled r
    /\ query r = q
    /\ sourceUrl r = researchSource
    /\ snippet r
       = match fetch researchSource with
         | Rejected _ => fallbackSnippet q
         | Fulfilled response =>
             match text response with
             | Rejected _ => fallbackSnippet q
             | Fulfilled html =>
                 substring 0 500
                   (trim (replace reSpaces " "
                            (replace reTag " "
                               (replace reStyle EmptyString
                                  (replace reScript EmptyString html)))))
                 +:+ "..."
             end
         end
    /\ (forall cut, cut +:+ "..." <> fallbackSnippet q).
Proof.
  unfold researchWeb.
  destruct (fetch researchSource) as [response|err]; cbn [obind try_catch].
  - destruct (text response) as [html|err]; cbn [obind try_catch];
      eexists; (split; [reflexivity|]); cbn [query sourceUrl snippet];
      repeat split; try reflexivity; intros cut; apply snippet_not_fallback.
  - eexists; (split; [reflexivity|]); cbn [query sourceUrl snippet];
      repeat split; try reflexivity; intros cut; apply snippet_not_fallback.
Qed.

End Research.

(** C10 as stated fails: a response with status 404 is no exception, so
    the snippet is cut from its body and the fallback text is not used. *)
Lemma researchWeb_not_found_counterexample :
  researchWeb (H := sampleHost)
    (fun _ => Fulfilled {| status := 404; text := Fulfilled "Not Found" |}) "agents"
  = Fulfilled {| query := "agents"; snippet := "Not Found..."; sourceUrl := researchSource |}
  /\ "Not Found..." <> fallbackSnippet "agents".
Proof.
  split; [vm_compute; reflexivity|].
  vm_compute. discriminate.
Qed.

(** ** More on the avatar profile *)

Section ProfileMore.
Context `{Host}.

(** [saveAvatarProfile] in one step. *)
Lemma saveAvatarProfile_run (P : PartialProfile.t) (w : World) :
  saveAvatarProfile P w
  = let A := AgentState.avatar (state w) in
    let id := or_generateId (AvatarProfile.id <$> A) w in
    let a := AvatarProfile.mk (fst id)
      (Spec.merge (Spec.nonempty_string (PartialProfile.displayName P))
         (Spec.nonempty_string (AvatarProfile.displayName <$> A)) "Unnamed Avatar")
      (Spec.merge (Spec.nonempty_string (PartialProfile.bio P))
         (AvatarProfile.bio <$> A) EmptyString)
      (Spec.merge (PartialProfile.tone P) (AvatarProfile.tone <$> A) casual)
      (Spec.merge (PartialProfile.expertiseTags P)
         (AvatarProfile.expertiseTags <$> A) []) in
    (a, mkWorld (AgentState.mk (Some a) (AgentState.memories (state w)))
                (idCount (snd id)) (now w)).
Proof.
  unfold saveAvatarProfile, getState, setState.
  unfold mbind, agent_bind, bind, mret, agent_ret, ret. cbn [state].
  rewrite or_generateId_run.
  rewrite !or_chain_string, or_chain_tone, or_chain_array, merge_empty_default.
  destruct (Spec.nonempty_string (AvatarProfile.id <$> AgentState.avatar (state w)));
    reflexivity.
Qed.

Lemma nonempty_string_some (s : string) :
  s <> EmptyString -> Spec.nonempty_string (Some s) = Some s.
Proof. destruct s; [congruence|reflexivity]. Qed.

Lemma merge_name_nonempty (x y : option string) :
  Spec.merge (Spec.nonempty_string x) (Spec.nonempty_string y) "Unnamed Avatar"
  <> EmptyString.
Proof. destruct x as [[|a s]|], y as [[|b s']|]; discriminate. Qed.

(** The name of the avatar is never empty once [saveAvatarProfile] has
    run: an empty or missing name falls back to the stored one, and an
    empty or missing stored one to ["Unnamed Avatar"]. *)
Theorem saveAvatarProfile_name_nonempty (P : PartialProfile.t) (w : World) :
  exists a,
    AgentState.avatar (state (exec (saveAvatarProfile P) w)) = Some a
    /\ AvatarProfile.displayName a <> EmptyString.
Proof.
  unfold exec. rewrite saveAvatarProfile_run. cbn zeta. cbn [snd state AgentState.avatar].
  eexists. split; [reflexivity|]. cbn [AvatarProfile.displayName].
  apply merge_name_nonempty.
Qed.

Lemma merge_again_name (x y : option string) :
  Spec.merge (Spec.nonempty_string x)
    (Spec.nonempty_string
       (Some (Spec.merge (Spec.nonempty_string x) (Spec.nonempty_string y) "Unnamed Avatar")))
    "Unnamed Avatar"
  = Spec.merge (Spec.nonempty_string x) (Spec.nonempty_string y) "Unnamed Avatar".
Proof. destruct x as [[|a s]|], y as [[|b s']|]; reflexivity. Qed.

Lemma merge_again {A : Type} (x y : option A) (d : A) :
  Spec.merge x (Some (Spec.merge x y d)) d = Spec.merge x y d.
Proof. destruct x, y; reflexivity. Qed.

Lemma generated_id_nonempty (a : option string) (w : World) :
  (forall n, generateId n <> EmptyString) ->
  fst (or_generateId a w) <> EmptyString.
Proof.
  intros Hgen. rewrite or_generateId_run.
  destruct a as [[|c s]|]; cbn [Spec.nonempty_string fst]; try apply Hgen.
  discriminate.
Qed.

(** Saving the same partial profile twice is saving it once: with a
    generator that hands out non-empty identifiers, the second call returns
    the profile of the first, identifier included, and changes nothing. *)
Theorem saveAvatarProfile_idempotent (P : PartialProfile.t) (w : World)
    (Hgen : forall n, generateId n <> EmptyString) :
  saveAvatarProfile P (exec (saveAvatarProfile P) w)
  = (eval (saveAvatarProfile P) w, exec (saveAvatarProfile P) w).
Proof.
  unfold eval, exec. rewrite (saveAvatarProfile_run P w). cbn zeta. cbn [fst snd].
  set (A := AgentState.avatar (state w)).
  pose proof (generated_id_nonempty (AvatarProfile.id <$> A) w Hgen) as Hid.
  set (i := or_generateId (AvatarProfile.id <$> A) w) in *.
  rewrite saveAvatarProfile_run. cbn zeta.
  cbn [state AgentState.avatar AgentState.memories now fmap option_fmap option_map
       AvatarProfile.id AvatarProfile.displayName AvatarProfile.bio
       AvatarProfile.tone AvatarProfile.expertiseTags].
  rewrite or_generateId_run.
  rewrite (nonempty_string_some _ Hid). cbn [fst snd idCount].
  rewrite merge_again_name, !merge_again. reflexivity.
Qed.

(** An update that carries no field leaves an avatar with a non-empty
    identifier and name exactly as it is, and the rest of the world too. *)
Theorem saveAvatarProfile_empty_noop (w : World) (a : AvatarProfile.t)
    (Havatar : AgentState.avatar (state w) = Some a)
    (Hid : AvatarProfile.id a <> EmptyString)
    (Hname : AvatarProfile.displayName a <> EmptyString) :
  saveAvatarProfile PartialProfile.empty w = (a, w).
Proof.
  rewrite saveAvatarProfile_run. cbn zeta. rewrite Havatar.
  cbn [fmap option_fmap option_map PartialProfile.empty PartialProfile.displayName
       PartialProfile.bio PartialProfile.tone PartialProfile.expertiseTags].
  rewrite or_generateId_run, !nonempty_string_some by assumption.
  cbn [Spec.nonempty_string Spec.merge fst snd].
  destruct w as [[av ms] n t]. cbn in Havatar. subst av.
  destruct a. reflexivity.
Qed.

(** With an avatar that has an identifier, a profile update and a memory
    save do not interfere: in either order they leave the same world, and
    each returns what it returns on its own. *)
Theorem saveMemory_saveAvatarProfile_commute (P : PartialProfile.t) ty content
    (w : World) (a : AvatarProfile.t)
    (Havatar : AgentState.avatar (state w) = Some a)
    (Hid : AvatarProfile.id a <> EmptyString) :
  exec (saveMemory ty content) (exec (saveAvatarProfile P) w)
  = exec (saveAvatarProfile P) (exec (saveMemory ty content) w)
  /\ eval (saveMemory ty content) (exec (saveAvatarProfile P) w)
     = eval (saveMemory ty content) w
  /\ eval (saveAvatarProfile P) (exec (saveMemory ty content) w)
     = eval (saveAvatarProfile P) w.
Proof.
  unfold eval, exec.
  rewrite (saveAvatarProfile_run P w), (saveMemory_run ty content w).
  cbn zeta. cbn [fst snd]. rewrite saveMemory_run, saveAvatarProfile_run. cbn zeta.
  cbn [fst snd state idCount now AgentState.avatar AgentState.memories].
  rewrite Havatar. cbn [fmap option_fmap option_map].
  rewrite !or_generateId_run, !nonempty_string_some by assumption.
  cbn [fst snd idCount]. repeat split; reflexivity.
Qed.

End ProfileMore.

(** ** More on the memory log *)

Section MemoryMore.
Context `{Host}.

(** Below the cap nothing is evicted: the log grows by the new item. *)
Theorem saveMemory_below_cap ty content (w : World)
    (Hroom : (length (AgentState.memories (state w)) < 50)%nat) :
  AgentState.memories (state (exec (saveMemory ty content) w))
  = AgentState.memories (state w) ++ [eval (newMemory ty content) w].
Proof.
  unfold exec. rewrite saveMemory_run. cbn [snd state AgentState.memories].
  apply last_items_all. rewrite length_app. cbn [length]. lia.
Qed.

(** On a full log exactly the oldest item makes room for the new one. *)
Theorem saveMemory_at_cap ty content (w : World)
    (Hfull : length (AgentState.memories (state w)) = 50%nat) :
  AgentState.memories (state (exec (saveMemory ty content) w))
  = drop 1 (AgentState.memories (state w)) ++ [eval (newMemory ty content) w].
Proof.
  unfold exec. rewrite saveMemory_run. cbn [snd state AgentState.memories].
  unfold Spec.last_items. rewrite length_app. cbn [length].
  rewrite drop_app_le by lia. f_equal. f_equal. lia.
Qed.

(** What [saveMemory] returns is what [getAvatarState] reads next. *)
Theorem getAvatarState_after_saveMemory ty content (w : World) :
  AgentState.memories (eval getAvatarState (exec (saveMemory ty content) w))
  = eval (saveMemory ty content) w.
Proof.
  unfold eval, exec. rewrite saveMemory_run. cbn [fst snd].
  unfold getAvatarState, getState, mbind, agent_bind, bind, mret, agent_ret, ret.
  cbn [fst state AgentState.memories]. apply (slice_neg 5). lia.
Qed.

End MemoryMore.

Lemma saveAvatarProfile_idempotent_witness :
  saveAvatarProfile (H := sampleHost) (PartialProfile.mk None (Some "Alex") None None None)
    (exec (saveAvatarProfile (H := sampleHost)
             (PartialProfile.mk None (Some "Alex") None None None)) emptyWorld)
  = (eval (saveAvatarProfile (H := sampleHost)
             (PartialProfile.mk None (Some "Alex") None None None)) emptyWorld,
     exec (saveAvatarProfile (H := sampleHost)
             (PartialProfile.mk None (Some "Alex") None None None)) emptyWorld).
Proof.
  apply (saveAvatarProfile_idempotent (H := sampleHost)
           (PartialProfile.mk None (Some "Alex") None None None) emptyWorld).
  intros n. discriminate.
Defined.

Lemma saveAvatarProfile_empty_noop_witness :
  saveAvatarProfile (H := sampleHost) PartialProfile.empty taggedWorld
  = (AvatarProfile.mk "id-0" "Alex" EmptyString casual ["typescript"], taggedWorld).
Proof.
  apply (saveAvatarProfile_empty_noop (H := sampleHost) taggedWorld
           (AvatarProfile.mk "id-0" "Alex" EmptyString casual ["typescript"]));
    [reflexivity | discriminate | discriminate].
Defined.

Lemma saveMemory_saveAvatarProfile_commute_witness :
  exec (saveMemory (H := sampleHost) note "likes tea")
       (exec (saveAvatarProfile (H := sampleHost) clearTags) taggedWorld)
  = exec (saveAvatarProfile (H := sampleHost) clearTags)
         (exec (saveMemory (H := sampleHost) note "likes tea") taggedWorld)
  /\ eval (saveMemory (H := sampleHost) note "likes tea")
          (exec (saveAvatarProfile (H := sampleHost) clearTags) taggedWorld)
     = eval (saveMemory (H := sampleHost) note "likes tea") taggedWorld
  /\ eval (saveAvatarProfile (H := sampleHost) clearTags)
          (exec (saveMemory (H := sampleHost) note "likes tea") taggedWorld)
     = eval (saveAvatarProfile (H := sampleHost) clearTags) taggedWorld.
Proof.
  apply (saveMemory_saveAvatarProfile_commute (H := sampleHost) clearTags note "likes tea"
           taggedWorld (AvatarProfile.mk "id-0" "Alex" EmptyString casual ["typescript"]));
    [reflexivity | discriminate].
Defined.

Lemma saveMemory_below_cap_witness :
  AgentState.memories (state (exec (saveMemory (H := sampleHost) task "ship it") emptyWorld))
  = AgentState.memories (state emptyWorld)
    ++ [eval (newMemory (H := sampleHost) task "ship it") emptyWorld].
Proof.
  apply (saveMemory_below_cap (H := sampleHost) task "ship it" emptyWorld).
  simpl. lia.
Defined.

Lemma saveMemory_at_cap_witness :
  AgentState.memories (state (exec (saveMemory (H := sampleHost) task "ship it") fullWorld))
  = drop 1 (AgentState.memories (state fullWorld))
    ++ [eval (newMemory (H := sampleHost) task "ship it") fullWorld].
Proof.
  apply (saveMemory_at_cap (H := sampleHost) task "ship it" fullWorld).
  vm_compute. reflexivity.
Defined.

(** ** Interleaved profile updates and memory saves *)

Section OpsProofs.
Context `{Host}.
Implicit Types (w : World) (o : Op) (ops : list Op).

Lemma doCall_run (c : Call) w :
  doCall c w
  = let item := MemoryItem.mk (generateId (idCount w)) (toISOString (at_ms c))
                  (call_type c) (call_content c) in
    let kept := Spec.last_items 50 (AgentState.memories (state w) ++ [item]) in
    (Spec.last_items 5 kept,
     mkWorld (AgentState.mk (AgentState.avatar (state w)) kept) (S (idCount w)) (at_ms c)).
Proof.
  unfold doCall, setClock, mbind, agent_bind, bind.
  rewrite saveMemory_run. reflexivity.
Qed.

Lemma runOps_cons o ops w :
  exec (runOps (o :: ops)) w = exec (runOps ops) (exec (doOp o) w).
Proof.
  unfold exec. cbn [runOps]. unfold mbind, agent_bind, bind.
  destruct (doOp o w) as [u w1]. reflexivity.
Qed.

Lemma doOp_memory (c : Call) w : exec (doOp (SaveMemoryOp c)) w = exec (doCall c) w.
Proof.
  unfold exec. cbn [doOp]. unfold mbind, agent_bind, bind, ret.
  destruct (doCall c w) as [r w1]. reflexivity.
Qed.

Lemma doOp_profile (P : PartialProfile.t) w :
  exec (doOp (SaveProfileOp P)) w = exec (saveAvatarProfile P) w.
Proof.
  unfold exec. cbn [doOp]. unfold mbind, agent_bind, bind, ret.
  destruct (saveAvatarProfile P w) as [r w1]. reflexivity.
Qed.

(** What both operations keep, every interleaving keeps. *)
Lemma runOps_invariant (I : World -> Prop) :
  (forall c w, I w -> I (exec (doCall c) w)) ->
  (forall P w, I w -> I (exec (saveAvatarProfile P) w)) ->
  forall ops w, I w -> I (exec (runOps ops) w).
Proof.
  intros Hmem Hprof ops. induction ops as [|o ops IH]; intros w Hw.
  - exact Hw.
  - rewrite runOps_cons. apply IH. destruct o as [c|P].
    + rewrite doOp_memory. apply Hmem, Hw.
    + rewrite doOp_profile. apply Hprof, Hw.
Qed.

(** A log within the cap stays within it under every interleaving of
    profile updates and memory saves. *)
Theorem runOps_log_bounded ops w
    (Hbound : (length (AgentState.memories (state w)) <= 50)%nat) :
  (length (AgentState.memories (state (exec (runOps ops) w))) <= 50)%nat.
Proof.
  revert ops w Hbound.
  apply (runOps_invariant
           (fun w => (length (AgentState.memories (state w)) <= 50)%nat)).
  - intros c w _. apply doCall_bounded.
  - intros P w Hw. unfold exec. rewrite saveAvatarProfile_run. exact Hw.
Qed.

(** Once an avatar has a non-empty identifier, no interleaving of profile
    updates and memory saves changes or removes it. *)
Theorem runOps_avatar_id_stable ops w (a : AvatarProfile.t)
    (Havatar : AgentState.avatar (state w) = Some a)
    (Hid : AvatarProfile.id a <> EmptyString) :
  AvatarProfile.id <$> AgentState.avatar (state (exec (runOps ops) w))
  = Some (AvatarProfile.id a).
Proof.
  assert (Hstart : AvatarProfile.id <$> AgentState.avatar (state w)
                   = Some (AvatarProfile.id a)) by (rewrite Havatar; reflexivity).
  clear Havatar. revert ops w Hstart.
  apply (runOps_invariant
           (fun w => AvatarProfile.id <$> AgentState.avatar (state w)
                     = Some (AvatarProfile.id a))).
  - intros c w Hw. unfold exec. rewrite doCall_run. exact Hw.
  - intros P w Hw. unfold exec. rewrite saveAvatarProfile_run. cbn zeta.
    cbn [snd state AgentState.avatar fmap option_fmap option_map AvatarProfile.id].
    rewrite or_generateId_run, Hw, nonempty_string_some by exact Hid.
    reflexivity.
Qed.

Lemma ids_used_doCall (c : Call) w :
  (forall n m, generateId n = generateId m -> n = m) ->
  ids_used w -> ids_used (exec (doCall c) w).
Proof.
  intros Hinj [Hnodup Hall]. unfold exec, ids_used. rewrite doCall_run.
  cbn zeta. cbn [snd state AgentState.memories idCount].
  set (item := MemoryItem.mk _ _ _ _).
  assert (Hfresh : MemoryItem.id item ∉ MemoryItem.id <$> AgentState.memories (state w)).
  { intros Hin. apply list_elem_of_fmap in Hin as [old [Hold Hin]].
    rewrite Forall_forall in Hall. destruct (Hall old Hin) as [k [Hk Hidk]].
    cbn in Hold. rewrite Hidk in Hold. apply Hinj in Hold. lia. }
  split.
  - unfold Spec.last_items. rewrite fmap_drop.
    eapply sublist_NoDup; [|apply sublist_drop].
    rewrite fmap_app. apply NoDup_app. split; [exact Hnodup|]. split.
    + intros x Hx Hx'. cbn in Hx'. apply list_elem_of_singleton in Hx'. subst x.
      exact (Hfresh Hx).
    + cbn. apply NoDup_singleton.
  - apply Forall_drop, Forall_app. split.
    + eapply Forall_impl; [exact Hall|]. intros old [k [Hk Hidk]].
      exists k. split; [lia|exact Hidk].
    + apply Forall_singleton. exists (idCount w). split; [lia|reflexivity].
Qed.

Lemma ids_used_saveAvatarProfile (P : PartialProfile.t) w :
  ids_used w -> ids_used (exec (saveAvatarProfile P) w).
Proof.
  intros [Hnodup Hall]. unfold exec, ids_used. rewrite saveAvatarProfile_run.
  cbn zeta. cbn [snd state AgentState.memories idCount].
  split; [exact Hnodup|].
  eapply Forall_impl; [exact Hall|]. intros old [k [Hk Hidk]].
  exists k. split; [|exact Hidk].
  rewrite or_generateId_run.
  destruct (Spec.nonempty_string _); cbn [snd idCount]; lia.
Qed.

(** With a generator that never repeats, the memories of a log that starts
    empty have pairwise distinct identifiers after every interleaving of
    profile updates and memory saves, evictions included. *)
Theorem runOps_memory_ids_distinct ops w
    (Hinj : forall n m, generateId n = generateId m -> n = m)
    (Hempty : AgentState.memories (state w) = []) :
  NoDup (MemoryItem.id <$> AgentState.memories (state (exec (runOps ops) w))).
Proof.
  assert (Hstart : ids_used w).
  { unfold ids_used. rewrite Hempty. split; [apply NoDup_nil_2|apply Forall_nil_2]. }
  clear Hempty.
  apply (runOps_invariant ids_used) with (ops := ops) in Hstart.
  - exact (proj1 Hstart).
  - intros c v. apply ids_used_doCall, Hinj.
  - intros P v. apply ids_used_saveAvatarProfile.
Qed.

End OpsProofs.

Lemma runOps_log_bounded_witness :
  (length (AgentState.memories (state (exec (runOps (H := sampleHost) sampleOps) fullWorld)))
   <= 50)%nat.
Proof.
  apply (runOps_log_bounded (H := sampleHost) sampleOps fullWorld).
  vm_compute. lia.
Defined.

Lemma runOps_avatar_id_stable_witness :
  AvatarProfile.id
    <$> AgentState.avatar (state (exec (runOps (H := sampleHost) sampleOps) taggedWorld))
  = Some (AvatarProfile.id (AvatarProfile.mk "id-0" "Alex" EmptyString casual ["typescript"])).
Proof.
  apply (runOps_avatar_id_stable (H := sampleHost) sampleOps taggedWorld
           (AvatarProfile.mk "id-0" "Alex" EmptyString casual ["typescript"]));
    [reflexivity | discriminate].
Defined.

Lemma sampleHost_generateId_inj (n m : nat) :
  generateId (Host := sampleHost) n = generateId (Host := sampleHost) m -> n = m.
Proof.
  cbn [generateId sampleHost]. intros Heq.
  apply (inj (String.append "id-")) in Heq. apply (inj pretty) in Heq. exact Heq.
Qed.

Lemma runOps_memory_ids_distinct_witness :
  NoDup (MemoryItem.id
           <$> AgentState.memories (state (exec (runOps (H := sampleHost) sampleOps) emptyWorld))).
Proof.
  apply (runOps_memory_ids_distinct (H := sampleHost) sampleOps emptyWorld);
    [exact sampleHost_generateId_inj | reflexivity].
Defined.

(** ** More on the context assembler *)

Section AssemblerMore.
Context `{Host}.

Lemma last_items_last_items {A : Type} (n m : nat) (l : list A) :
  (n <= m)%nat -> Spec.last_items n (Spec.last_items m l) = Spec.last_items n l.
Proof.
  intros Hle. unfold Spec.last_items. rewrite drop_drop, length_drop. f_equal. lia.
Qed.

Lemma renderContext_of_snapshot (w : World) :
  Spec.renderContext (eval getAvatarState w) = Spec.renderContext (state w).
Proof.
  unfold eval, getAvatarState, getState, mbind, agent_bind, bind, mret, agent_ret, ret.
  cbn [fst]. unfold Spec.renderContext, Spec.memoryBlock.
  cbn [AgentState.avatar AgentState.memories].
  rewrite (slice_neg 5) by lia. rewrite last_items_last_items by lia. reflexivity.
Qed.

(** The prompt needs no more than the snapshot: the context and the system
    prompt built from what [getAvatarState] returns are those built from
    the full state, however long the log is. *)
Theorem prompt_from_snapshot (w : World) (n : nat) :
  eval buildContextString (mkWorld (eval getAvatarState w) n (now w))
  = eval buildContextString w
  /\ eval getSystemPrompt (mkWorld (eval getAvatarState w) n (now w))
     = eval getSystemPrompt w.
Proof.
  unfold eval at 1 3 4 6. rewrite !getSystemPrompt_run, !buildContextString_run.
  cbn [fst state now]. rewrite renderContext_of_snapshot.
  split; [reflexivity|].
  unfold Spec.toneOf, eval, getAvatarState, getState, mbind, agent_bind, bind,
    mret, agent_ret, ret.
  reflexivity.
Qed.

(** A memory that has just been saved is the last line of the context of
    the next prompt. *)
Theorem context_ends_with_saved_memory ty content (w : World) :
  exists before,
    eval buildContextString (exec (saveMemory ty content) w)
    = before +:+ Spec.memoryLine (eval (newMemory ty content) w) +:+ nl.
Proof.
  unfold eval at 1. rewrite buildContextString_run. cbn [fst].
  unfold exec. rewrite saveMemory_run. cbn [snd state].
  change (eval (newMemory ty content) w)
    with (MemoryItem.mk (generateId (idCount w)) (toISOString (now w)) ty content).
  set (item := MemoryItem.mk _ _ _ _).
  unfold Spec.renderContext, Spec.memoryBlock. cbn [AgentState.avatar AgentState.memories].
  rewrite last_items_last_items by lia.
  assert (Hlast : Spec.last_items 3 (AgentState.memories (state w) ++ [item])
                  = Spec.last_items 2 (AgentState.memories (state w)) ++ [item]).
  { unfold Spec.last_items. rewrite length_app. cbn [length].
    rewrite drop_app_le by lia. f_equal. f_equal. lia. }
  rewrite Hlast.
  set (front := Spec.last_items 2 (AgentState.memories (state w))).
  destruct (front ++ [item]) as [|x recent] eqn:Hrecent.
  { destruct front; discriminate Hrecent. }
  rewrite <- Hrecent. rewrite fmap_app, !app_assoc, unlines_app.
  eexists. cbn [fmap list_fmap Spec.unlines foldr].
  rewrite append_empty_r. reflexivity.
Qed.

(** A profile update that carries a tone decides the instruction of the
    next prompt. *)
Theorem tone_update_reaches_prompt (P : PartialProfile.t) (w : World) (t : Tone)
    (Htone : PartialProfile.tone P = Some t) :
  eval getSystemPrompt (exec (saveAvatarProfile P) w)
  = promptIntro +:+ tone_str t +:+ ") in ALL responses: " +:+ Spec.instruction t
      +:+ promptRules +:+ getSchedulePrompt (now w) +:+ nl +:+ nl
      +:+ eval buildContextString (exec (saveAvatarProfile P) w).
Proof.
  unfold eval. rewrite getSystemPrompt_run, buildContextString_run. cbn [fst].
  unfold exec. rewrite saveAvatarProfile_run. cbn zeta. cbn [snd state now].
  unfold Spec.toneOf. cbn [AgentState.avatar AvatarProfile.tone].
  rewrite Htone. reflexivity.
Qed.

End AssemblerMore.

Lemma tone_update_reaches_prompt_witness :
  eval (getSystemPrompt (H := sampleHost))
       (exec (saveAvatarProfile (H := sampleHost)
                (PartialProfile.mk None None None (Some playful) None)) taggedWorld)
  = promptIntro +:+ tone_str playful +:+ ") in ALL responses: " +:+ Spec.instruction playful
      +:+ promptRules +:+ getSchedulePrompt (Host := sampleHost) (now taggedWorld) +:+ nl +:+ nl
      +:+ eval (buildContextString (H := sampleHost))
               (exec (saveAvatarProfile (H := sampleHost)
                        (PartialProfile.mk None None None (Some playful) None)) taggedWorld).
Proof.
  apply (tone_update_reaches_prompt (H := sampleHost)
           (PartialProfile.mk None None None (Some playful) None) taggedWorld playful).
  reflexivity.
Defined.

(** ** More on start-up *)

Section StartupMore.

Lemma onStart_object_ok (m : gmap string jsval) :
  isArray (Startup.field "memories" (JObj m)) = true ->
  Startup.onStart (JObj m) = Fulfilled (JObj m).
Proof.
  intros Harr. unfold Startup.onStart, Startup.field in *.
  cbn [truthy_val typeof negb orb String.eqb Ascii.eqb Bool.eqb getProp obind].
  rewrite Harr. reflexivity.
Qed.

Lemma onStart_object_healed (m : gmap string jsval) :
  Startup.onStart (JObj (<["memories" := JArr []]> m))
  = Fulfilled (JObj (<["memories" := JArr []]> m)).
Proof.
  apply onStart_object_ok. unfold Startup.field.
  rewrite lookup_insert_eq. reflexivity.
Qed.

(** The self-heal is stable: the state that [onStart] leaves is one that
    [onStart] leaves alone, so a restart after a repair repairs nothing
    further. *)
Theorem onStart_idempotent (st : jsval) :
  exists st',
    Startup.onStart st = Fulfilled st'
    /\ Startup.onStart st' = Fulfilled st'.
Proof.
  assert (Hdefaults : Startup.onStart Startup.defaults = Fulfilled Startup.defaults).
  { apply onStart_object_ok. vm_compute. reflexivity. }
  destruct st as [| |b|z|s|l|m].
  1-5: exists Startup.defaults;
       (split; [apply onStart_reset; cbn [truthy_val typeof];
                apply orb_true_iff;
                first [left; reflexivity | right; reflexivity]
               |exact Hdefaults]).
  - exists (JObj (<["memories" := JArr []]> (indexed (fun x => x) l))).
    split; [reflexivity|apply onStart_object_healed].
  - destruct (isArray (Startup.field "memories" (JObj m))) eqn:Harr.
    + exists (JObj m). split; apply onStart_object_ok; exact Harr.
    + exists (JObj (<["memories" := JArr []]> m)).
      split; [|apply onStart_object_healed].
      unfold Startup.onStart, Startup.field in *.
      cbn [truthy_val typeof negb orb String.eqb Ascii.eqb Bool.eqb getProp obind].
      rewrite Harr. reflexivity.
Qed.

End StartupMore.

(** ** The tools *)

Section ToolProofs.
Context `{Host}.

Lemma z_enum_type_exact (s : string) (ty : MemoryType) :
  Tools.z_enum_type (JStr s) = Some ty -> s = type_str ty.
Proof.
  unfold Tools.z_enum_type.
  destruct (String.eqb_spec s "task") as [->|_]; [intros [= <-]; reflexivity|].
  destruct (String.eqb_spec s "preference") as [->|_]; [intros [= <-]; reflexivity|].
  destruct (String.eqb_spec s "note") as [->|_]; [intros [= <-]; reflexivity|].
  discriminate.
Qed.

(** The [saveMemory] tool accepts exactly the argument objects whose
    [type] is one of the three type names and whose [content] is a string;
    anything else in the object is ignored. *)
Theorem saveMemory_schema_exact (input : jsval) (ty : MemoryType) (content : string) :
  Tools.inputSchema input = Some (ty, content)
  <-> exists m, input = JObj m
                /\ m !! "type" = Some (JStr (type_str ty))
                /\ m !! "content" = Some (JStr content).
Proof.
  split.
  - destruct input as [| |b|z|s|l|m]; try discriminate. unfold Tools.inputSchema.
    intros Hparse. exists m. split; [reflexivity|].
    destruct (m !! "type") as [[| |b|z|s|l|m']|]; try discriminate Hparse.
    cbn [default from_option id] in Hparse.
    destruct (Tools.z_enum_type (JStr s)) as [ty'|] eqn:Hty; [|discriminate Hparse].
    cbn [mbind option_bind] in Hparse.
    destruct (m !! "content") as [[| |b|z|s'|l|m']|]; try discriminate Hparse.
    cbn in Hparse. injection Hparse as -> ->.
    apply z_enum_type_exact in Hty. subst s. split; reflexivity.
  - intros [m [-> [Hty Hcontent]]]. unfold Tools.inputSchema.
    rewrite Hty, Hcontent. cbn [default from_option id].
    rewrite z_enum_type_str. reflexivity.
Qed.

Lemma arg_set_optional_eq (k : string) (v : option jsval) (m : gmap string jsval) :
  ToolSet.arg (ToolSet.set_optional k v m) k = default JUndefined v.
Proof.
  unfold ToolSet.arg, ToolSet.set_optional. destruct v as [x|].
  - rewrite lookup_insert_eq. reflexivity.
  - rewrite lookup_delete_eq. reflexivity.
Qed.

Lemma arg_set_optional_ne (k k' : string) (v : option jsval) (m : gmap string jsval) :
  k <> k' -> ToolSet.arg (ToolSet.set_optional k v m) k' = ToolSet.arg m k'.
Proof.
  intros Hne. unfold ToolSet.arg, ToolSet.set_optional. destruct v as [x|].
  - rewrite lookup_insert_ne by exact Hne. reflexivity.
  - rewrite lookup_delete_ne by exact Hne. reflexivity.
Qed.

Lemma z_optional_string (x : option string) :
  ToolSet.z_optional Tools.z_string (default JUndefined (JStr <$> x)) = Some x.
Proof. destruct x; reflexivity. Qed.

Lemma z_optional_tone (x : option Tone) :
  ToolSet.z_optional ToolSet.z_enum_tone
    (default JUndefined ((fun t => JStr (tone_str t)) <$> x)) = Some x.
Proof. destruct x as [[]|]; reflexivity. Qed.

Lemma z_optional_tags (x : option (list string)) :
  ToolSet.z_optional (ToolSet.z_array Tools.z_string)
    (default JUndefined ((fun tags => JArr (JStr <$> tags)) <$> x)) = Some x.
Proof.
  destruct x as [tags|]; [|reflexivity].
  cbn [fmap option_fmap option_map default from_option id
       ToolSet.z_optional ToolSet.z_array].
  rewrite (mapM_fmap_Some Tools.z_string JStr tags) by reflexivity.
  reflexivity.
Qed.

(** Arguments written from a partial profile, a key per field that is
    present, are accepted by the [saveAvatarProfile] tool and read back as
    that profile; an identifier is never among what the tool passes on. *)
Theorem avatarSchema_round_trip (P : PartialProfile.t) :
  ToolSet.avatarSchema (ToolSet.encodeProfile P)
  = Some (PartialProfile.mk None (PartialProfile.displayName P) (PartialProfile.bio P)
            (PartialProfile.tone P) (PartialProfile.expertiseTags P)).
Proof.
  unfold ToolSet.avatarSchema, ToolSet.encodeProfile.
  set (tags := ToolSet.set_optional "expertiseTags" _ _).
  set (tone := ToolSet.set_optional "tone" _ tags).
  set (bio := ToolSet.set_optional "bio" _ tone).
  set (name := ToolSet.set_optional "displayName" _ bio).
  assert (Hname : ToolSet.arg name "displayName"
                  = default JUndefined (JStr <$> PartialProfile.displayName P))
    by apply arg_set_optional_eq.
  assert (Hbio : ToolSet.arg name "bio"
                 = default JUndefined (JStr <$> PartialProfile.bio P)).
  { unfold name. rewrite arg_set_optional_ne by discriminate. apply arg_set_optional_eq. }
  assert (Htone : ToolSet.arg name "tone"
                  = default JUndefined ((fun t => JStr (tone_str t)) <$> PartialProfile.tone P)).
  { unfold name, bio. rewrite !arg_set_optional_ne by discriminate.
    apply arg_set_optional_eq. }
  assert (Htags : ToolSet.arg name "expertiseTags"
                  = default JUndefined
                      ((fun tags => JArr (JStr <$> tags)) <$> PartialProfile.expertiseTags P)).
  { unfold name, bio, tone. rewrite !arg_set_optional_ne by discriminate.
    apply arg_set_optional_eq. }
  rewrite Hname, Hbio, Htone, Htags.
  rewrite !z_optional_string, z_optional_tone, z_optional_tags. reflexivity.
Qed.

(** What the [saveAvatarProfile] tool writes, the [getAvatarState] tool
    reads: after an accepted call the read returns the avatar that the
    write returned, with the last 5 memories untouched by the write. *)
Theorem avatar_tool_write_then_read (input : jsval) (P : PartialProfile.t) (w : World)
    (Hparse : ToolSet.avatarSchema input = Some P) :
  fst (ToolSet.saveAvatarProfile_call input (Some w))
  = ToolSet.AvatarUpdated "Avatar profile updated successfully!"
      (eval (saveAvatarProfile P) w)
  /\ ToolSet.getAvatarState_execute (snd (ToolSet.saveAvatarProfile_call input (Some w)))
     = ToolSet.AvatarStateRead (Some (eval (saveAvatarProfile P) w))
         (Spec.last_items 5 (AgentState.memories (state w))).
Proof.
  unfold ToolSet.saveAvatarProfile_call. rewrite Hparse.
  unfold ToolSet.saveAvatarProfile_execute, eval.
  rewrite saveAvatarProfile_run. cbn zeta. cbn [fst snd].
  split; [reflexivity|].
  unfold ToolSet.getAvatarState_execute, eval, getAvatarState, getState,
    mbind, agent_bind, bind, mret, agent_ret, ret.
  cbn [fst state AgentState.avatar AgentState.memories].
  rewrite (slice_neg 5) by lia. reflexivity.
Qed.

(** With an agent at hand the [researchWeb] tool never reports a failure:
    whatever the request does, it hands back a result for the query it was
    given, from the fixed source. *)
Theorem researchWeb_tool_succeeds (fetch : string -> Outcome Response) (q : string)
    (w : World) :
  exists r,
    ToolSet.researchWeb_execute fetch q (Some w)
    = ToolSet.Researched ("Research completed for: " +:+ dq +:+ q +:+ dq) r
    /\ query r = q
    /\ sourceUrl r = researchSource.
Proof.
  unfold ToolSet.researchWeb_execute, researchWeb.
  destruct (fetch researchSource) as [response|err]; cbn [obind try_catch].
  - destruct (text response) as [html|err]; cbn [obind try_catch];
      eexists; repeat split; reflexivity.
  - eexists; repeat split; reflexivity.
Qed.

End ToolProofs.

Lemma avatar_tool_write_then_read_witness :
  fst (ToolSet.saveAvatarProfile_call (H := sampleHost)
         (ToolSet.encodeProfile clearTags) (Some taggedWorld))
  = ToolSet.AvatarUpdated "Avatar profile updated successfully!"
      (eval (saveAvatarProfile (H := sampleHost) clearTags) taggedWorld)
  /\ ToolSet.getAvatarState_execute
       (snd (ToolSet.saveAvatarProfile_call (H := sampleHost)
               (ToolSet.encodeProfile clearTags) (Some taggedWorld)))
     = ToolSet.AvatarStateRead
         (Some (eval (saveAvatarProfile (H := sampleHost) clearTags) taggedWorld))
         (Spec.last_items 5 (AgentState.memories (state taggedWorld))).
Proof.
  apply (avatar_tool_write_then_read (H := sampleHost)
           (ToolSet.encodeProfile clearTags) clearTags taggedWorld).
  vm_compute. reflexivity.
Defined.

